(** * Prometheus anomaly detection notebook: a shallow embedding

    The development follows the code cells of
    [(Exercises) Introduction_TimeSeries_Anomaly_Detection.ipynb]:

    - the resampling cell ([m_values.resample(freq).mean()], [dropna()]),
    - [split_data], the 80/20 chronological train/test split,
    - [_sarima], the seasonal-period table and the call of statsmodels'
      [SARIMAX],
    - [evaluation], the bound estimator and the anomaly classifier,
    - [notebook], these cells run one after the other.

    Conventions.  A timestamp is an integer number of seconds since the
    epoch.  A float is either [NaN] or a real number ([Num x]): rounding
    and infinities are idealised away, the propagation of NaN through
    arithmetic and comparisons is kept, because several properties of
    [evaluation] depend on it.  A one-column [DataFrame] indexed by time is
    the list of its rows in index order.  The module [Binary64] evaluates
    the few places where the idealisation matters on IEEE doubles.  numpy,
    pandas and statsmodels are not part of the notebook: numpy and pandas
    operations are written out from their documented behaviour;
    statsmodels and the diagnostic and plotting calls, all of which may
    raise, are parameters of [_sarima] and [notebook]. *)

From Stdlib Require Import ZArith List Reals Lra Lia String Bool.
From Stdlib Require Import QArith Qround.
From Stdlib Require Import Sorted Permutation.
From Stdlib Require Floats.
Import ListNotations.

Set Implicit Arguments.
Close Scope Q_scope.

(* [length] is the length of a list throughout, never of a string. *)
Abbreviation length := List.length (only parsing).

(** ** Outcomes of Python calls *)

Module Py.

(** A call either returns a value or raises an exception, named by its
    class. *)
Inductive outcome (A : Type) : Type :=
| Returns (a : A)
| Raises (exc : string).

Arguments Returns {A} a.
Arguments Raises {A} exc.

Definition bind {A B : Type} (c : outcome A) (k : A -> outcome B) : outcome B :=
  match c with
  | Returns a => k a
  | Raises e => Raises e
  end.

(** A function whose body has no failing operation always returns. *)
Definition call {A B : Type} (f : A -> B) (x : A) : outcome B := Returns (f x).

(** [int(q)] truncates toward zero. *)
Definition int (q : Q) : Z := Z.quot (Qnum q) (Zpos (Qden q)).

End Py.

Notation "x <- c ;; k" := (Py.bind c (fun x => k))
  (at level 61, c at next level, right associativity).

(** ** Floats with NaN *)

Inductive float : Type :=
| NaN
| Num (x : R).

Module Float.

Definition add (a b : float) : float :=
  match a, b with
  | Num x, Num y => Num (x + y)
  | _, _ => NaN
  end.

Definition sub (a b : float) : float :=
  match a, b with
  | Num x, Num y => Num (x - y)
  | _, _ => NaN
  end.

Definition mul (a b : float) : float :=
  match a, b with
  | Num x, Num y => Num (x * y)
  | _, _ => NaN
  end.

(** Every comparison with NaN is false. *)
Definition ltb (a b : float) : bool :=
  match a, b with
  | Num x, Num y => if Rlt_dec x y then true else false
  | _, _ => false
  end.

Definition gtb (a b : float) : bool := ltb b a.

Definition leb (a b : float) : bool :=
  match a, b with
  | Num x, Num y => if Rle_dec x y then true else false
  | _, _ => false
  end.

Definition geb (a b : float) : bool := leb b a.

End Float.

(** ** Data frames *)

(** Seconds since the epoch. *)
Abbreviation Timestamp := Z (only parsing).

(** A frame with a time index and one numeric column ([y] for the metric,
    [predict] for the forecast); no missing value. *)
Definition DataFrame : Type := list (Timestamp * R).

Definition index (df : DataFrame) : list Timestamp := map fst df.
Definition column (df : DataFrame) : list R := map snd df.

(** ** numpy reductions *)

Definition np_sum (a : list R) : R := fold_right Rplus 0%R a.

Definition np_mean (a : list R) : R := (np_sum a / INR (length a))%R.

(** The population standard deviation of a non-empty array,
    [sqrt(mean(abs(x - x.mean())**2))]: the divisor is the number of
    points ([ddof=0], numpy's default). *)
Definition population_std (a : list R) : R :=
  sqrt (np_mean (map (fun x => (Rabs (x - np_mean a) ^ 2)%R) a)).

(** [np.std(a)]: NaN on an empty array (a mean of an empty slice). *)
Definition np_std (a : list R) : float :=
  match a with
  | [] => NaN
  | _ :: _ => Num (population_std a)
  end.

(** ** Data sampling cell *)

(** The left edge of the bucket of width [w] that holds [t].  pandas
    anchors the bins of a frequency at the midnight of the first day; for
    a width that divides a day these are the multiples of [w] since the
    epoch (top of the hour for ['1h'], midnight for ['1d']). *)
Definition bucket_of (w : Z) (t : Timestamp) : Timestamp := (w * (t / w))%Z.

(** The bucket width, in seconds, of the frequency strings the notebook
    names. *)
Definition freq_seconds (freq : string) : option Z :=
  if String.eqb freq "1h" then Some 3600%Z
  else if String.eqb freq "30Min" then Some 1800%Z
  else if String.eqb freq "15Min" then Some 900%Z
  else if String.eqb freq "1d" then Some 86400%Z
  else None.

(** The bins of [resample]: every bucket from the one of the earliest
    timestamp to the one of the latest, empty ones included. *)
Definition bin_edges (w : Z) (idx : list Timestamp) : list Timestamp :=
  match idx with
  | [] => []
  | t :: ts =>
      let first := bucket_of w (fold_right Z.min t ts) in
      let last := bucket_of w (fold_right Z.max t ts) in
      map (fun k => (first + w * Z.of_nat k)%Z)
          (seq 0 (S (Z.to_nat ((last - first) / w))))
  end.

(** Buckets are closed on the left and open on the right. *)
Definition in_bin (w : Z) (b : Timestamp) (row : Timestamp * R) : bool :=
  (b <=? fst row)%Z && (fst row <? b + w)%Z.

(** [.mean()] of one bin: NaN when no sample fell into it. *)
Definition bin_mean (values : list R) : float :=
  match values with
  | [] => NaN
  | _ :: _ => Num (np_mean values)
  end.

(** [m_values.resample(freq).mean()]: one row per bin, labelled by the
    bin's left edge. *)
Definition resample_mean (w : Z) (df : DataFrame) : list (Timestamp * float) :=
  map (fun b => (b, bin_mean (column (filter (in_bin w b) df))))
      (bin_edges w (index df)).

(** [dropna()]: the rows whose value is NaN are removed. *)
Fixpoint dropna (rows : list (Timestamp * float)) : DataFrame :=
  match rows with
  | [] => []
  | (t, NaN) :: rest => dropna rest
  | (t, Num v) :: rest => (t, v) :: dropna rest
  end.

(** The cell, on the raw frame with its [ds] column:
    [m_values.set_index('ds')], which makes the timestamps the index (the
    rows of a [DataFrame] stay as they are), then
    [m_values = m_values.resample(freq).mean()] and
    [m_values = m_values.dropna()], for a frequency of [w] seconds.  The
    result has no [ds] column any more: the cell is not run on its own
    result. *)
Definition resample_cell (w : Z) (m_values : DataFrame) : DataFrame :=
  let m_values := resample_mean w m_values in
  let m_values := dropna m_values in
  m_values.

(** ** Train/test split *)

(** [sort_values(by = 'ds')]: rows in increasing time order.  pandas'
    default sort is not stable: it fixes the order of the rows up to the
    order of rows of one timestamp.  Here rows are inserted one at a time,
    a row going before the rows of the same timestamp that followed it;
    what is stated of the order of particular rows is stated for frames
    without a repeated timestamp, where every sort gives the same
    frame. *)
Fixpoint insert_row (r : Timestamp * R) (sorted : DataFrame) : DataFrame :=
  match sorted with
  | [] => [r]
  | h :: rest =>
      if (fst r <=? fst h)%Z then r :: sorted else h :: insert_row r rest
  end.

Definition sort_values (dataframe : DataFrame) : DataFrame :=
  fold_right insert_row [] dataframe.

(** The order of [sort_values]: a row is not later than the next. *)
Definition chronological (a b : Timestamp * R) : Prop := (fst a <= fst b)%Z.

(** [split_data(dataframe)]: the first [int(len * (1 - 0.2))] rows of the
    sorted frame for training, the others for testing. *)
Definition split_data (dataframe : DataFrame) : DataFrame * DataFrame :=
  let dataframe := sort_values dataframe in
  let ratio : Q := 0.2%Q in
  let size := Py.int (inject_Z (Z.of_nat (length dataframe)) * (1 - ratio))%Q in
  let train := firstn (Z.to_nat size) dataframe in
  let test := skipn (Z.to_nat size) dataframe in
  (train, test).

(** ** The SARIMA model *)

(** The keyword arguments [_sarima] gives to [SARIMAX]. *)
Record SARIMAX_args : Type := {
  endog : DataFrame;
  order : Z * Z * Z;
  seasonal_order : Z * Z * Z * Z;
  enforce_stationarity : bool;
  enforce_invertibility : bool
}.

(** The seasonal period of a frequency: the [if]/[elif] chain of
    [_sarima], [sfrequency] keeping its initial 0 when no branch fires. *)
Definition sfrequency_of (freq : string) : Z :=
  let sfrequency := 0%Z in
  if String.eqb freq "1h" then 24%Z
  else if String.eqb freq "30Min" then 48%Z
  else if String.eqb freq "15Min" then 96%Z
  else if String.eqb freq "1d" then 1%Z
  else sfrequency.

(** The arguments of the [SARIMAX(...)] call. *)
Definition sarimax_args (train : DataFrame) (freq : string) : SARIMAX_args :=
  let sfrequency := sfrequency_of freq in
  {| endog := train;
     order := (1, 2, 2)%Z;
     seasonal_order := (2, 2, 2, sfrequency)%Z;
     enforce_stationarity := true;
     enforce_invertibility := false |}.

Section Sarima.

(** What [_sarima] calls of statsmodels, pandas and matplotlib, each of
    which may raise: the constructor, [model.fit], the residual
    diagnostics ([pd.DataFrame(model_fit.resid)], [residuals.plot()],
    [residuals.plot(kind='kde')], [plt.show()] and
    [residuals.describe()]), [model_fit.forecast] and the plots of the
    forecast against the test set. *)
Variables Model ModelFit : Type.
Variable SARIMAX : SARIMAX_args -> Py.outcome Model.
Variable fit : Model -> Py.outcome ModelFit.
Variable residual_diagnostics : ModelFit -> Py.outcome unit.
Variable forecast_of : ModelFit -> nat -> Py.outcome (list R).
Variable forecast_plots : DataFrame -> DataFrame -> Py.outcome unit.

(** [pd.DataFrame(values, columns = ['predict'], index = idx)]: the
    lengths must agree. *)
Definition frame_of (values : list R) (idx : list Timestamp) : Py.outcome DataFrame :=
  if Nat.eqb (length values) (length idx)
  then Py.Returns (combine idx values)
  else Py.Raises "ValueError".

(** [_sarima(train, test, freq)], statement after statement; the prints
    are left out. *)
Definition _sarima (train test : DataFrame) (freq : string)
  : Py.outcome (Model * ModelFit * DataFrame) :=
  model <- SARIMAX (sarimax_args train freq) ;;
  model_fit <- fit model ;;
  residuals <- residual_diagnostics model_fit ;;
  let K := length test in
  forecast <- forecast_of model_fit K ;;
  forecast <- frame_of forecast (index test) ;;
  shown <- forecast_plots forecast test ;;
  Py.Returns (model, model_fit, forecast).

End Sarima.

(** A stand-in for the library in which every call succeeds: the model is
    its arguments, the fit is the model, the forecast is constant and the
    diagnostics and plots show nothing. *)
Definition accept_all : SARIMAX_args -> Py.outcome SARIMAX_args := Py.Returns.
Definition fit_all : SARIMAX_args -> Py.outcome SARIMAX_args := Py.Returns.
Definition flat_forecast (_ : SARIMAX_args) (K : nat) : Py.outcome (list R) :=
  Py.Returns (repeat 0%R K).
Definition no_diagnostics (_ : SARIMAX_args) : Py.outcome unit := Py.Returns tt.
Definition no_plots (_ _ : DataFrame) : Py.outcome unit := Py.Returns tt.

(** A stand-in that refuses a seasonal model without a seasonal period. *)
Definition need_period (args : SARIMAX_args) : Py.outcome SARIMAX_args :=
  let '(_, _, _, s) := seasonal_order args in
  if (s =? 0)%Z then Py.Raises "ValueError" else Py.Returns args.

(** ** Model evaluation *)

(** A row of the [compare] frame that [evaluation] prints. *)
Record CompareRow : Type := {
  ds : Timestamp;
  y : R;
  predict : R;
  LowerBound : float;
  UpperBound : float;
  WithinUpperBounds : bool;
  WithinLowerBounds : bool;
  Anomaly : Z
}.

(** [forecast['predict'][i] + (np.std(forecast[:i])*2)] for every [i] in
    [range(len(forecast))]. *)
Definition upper_bound (forecast : DataFrame) : list float :=
  map (fun i =>
         Float.add (Num (nth i (column forecast) 0%R))
                   (Float.mul (np_std (column (firstn i forecast))) (Num 2)))
      (seq 0 (length forecast)).

(** [forecast['predict'][i] - (np.std(forecast[:i])*2)]. *)
Definition lower_bound (forecast : DataFrame) : list float :=
  map (fun i =>
         Float.sub (Num (nth i (column forecast) 0%R))
                   (Float.mul (np_std (column (firstn i forecast))) (Num 2)))
      (seq 0 (length forecast)).

(** The flag of one row: 0 when the actual value is strictly inside the
    band, 1 otherwise. *)
Definition anomaly_flag (actual : R) (lower upper : float) : Z :=
  if Float.ltb (Num actual) upper && Float.gtb (Num actual) lower
  then 0%Z else 1%Z.

(** [evaluation(forecast, test)], for a forecast that has the index of
    [test] (as [_sarima] builds it): the join pairs the rows position by
    position and [dropna] removes none.  The value is the final [compare]
    frame. *)
Definition evaluation (forecast test : DataFrame) : list CompareRow :=
  let upper_bound := upper_bound forecast in
  let lower_bound := lower_bound forecast in
  let compare := combine test (column forecast) in
  map (fun i =>
         let '(t, actual, predicted) := nth i compare (0%Z, 0%R, 0%R) in
         let lower := nth i lower_bound NaN in
         let upper := nth i upper_bound NaN in
         {| ds := t;
            y := actual;
            predict := predicted;
            LowerBound := lower;
            UpperBound := upper;
            WithinUpperBounds := Float.ltb (Num predicted) upper;
            WithinLowerBounds := Float.gtb (Num predicted) lower;
            Anomaly := anomaly_flag actual lower upper |})
      (seq 0 (length compare)).

(** ** The notebook, cell after cell *)

Section Notebook.

Variables Model ModelFit : Type.
Variable SARIMAX : SARIMAX_args -> Py.outcome Model.
Variable fit : Model -> Py.outcome ModelFit.
Variable residual_diagnostics : ModelFit -> Py.outcome unit.
Variable forecast_of : ModelFit -> nat -> Py.outcome (list R).
Variable forecast_plots : DataFrame -> DataFrame -> Py.outcome unit.

(** The plots at the end of [evaluation], which may raise. *)
Variable evaluation_plots : list CompareRow -> Py.outcome unit.

(** The code cells from the data sampling to the evaluation: the sampling
    at a frequency of [w] seconds, [train, test = split_data(m_values)],
    [model, model_fit, forecast = _sarima(train, test, freq)] and
    [evaluation(forecast, test)].  The value is the frame that
    [evaluation] prints. *)
Definition notebook (w : Z) (freq : string) (m_values : DataFrame)
  : Py.outcome (list CompareRow) :=
  let m_values := resample_cell w m_values in
  let '(train, test) := split_data m_values in
  r <- _sarima SARIMAX fit residual_diagnostics forecast_of forecast_plots
               train test freq ;;
  let '(model, model_fit, forecast) := r in
  let compare := evaluation forecast test in
  shown <- evaluation_plots compare ;;
  Py.Returns compare.

End Notebook.

(** ** The same computations on IEEE doubles *)

Module Binary64.

Import Floats.PrimFloat.

#[local] Set Warnings "-inexact-float".

(** [len * (1 - float(ratio))] for a frame of [n] rows. *)
Definition split_product (n : nat) : PrimFloat.float :=
  (of_uint63 (Uint63.of_Z (Z.of_nat n)) * (1 - 0.2))%float.

(** The product lies between the integer part of 4n/5 and its successor:
    [int] of it is the split point of the exact computation. *)
Definition split_point_agrees (n : nat) : bool :=
  let m := (4 * Z.of_nat n / 5)%Z in
  (of_uint63 (Uint63.of_Z m) <=? split_product n)%float
  && (split_product n <? of_uint63 (Uint63.of_Z (m + 1)))%float.

(** The mean of an empty slice, 0 / 0, and the bounds it gives around the
    prediction [x]. *)
Definition empty_std : PrimFloat.float := sqrt (0 / 0)%float.
Definition upper_of_empty (x : PrimFloat.float) : PrimFloat.float :=
  (x + empty_std * 2)%float.
Definition lower_of_empty (x : PrimFloat.float) : PrimFloat.float :=
  (x - empty_std * 2)%float.

(** NaN deviation, NaN bounds around the prediction 10, and both
    comparisons of the actual value 10 with them false. *)
Definition empty_window_checks : bool :=
  is_nan empty_std
  && is_nan (upper_of_empty 10) && is_nan (lower_of_empty 10)
  && negb (10 <? upper_of_empty 10)%float
  && negb (lower_of_empty 10 <? 10)%float.

(** The deviation of a window of one value [x], by the two-pass formula
    (mean, squared distances, their mean, square root). *)
Definition single_point_std (x : PrimFloat.float) : PrimFloat.float :=
  let mean := (x / 1)%float in
  sqrt (abs (x - mean) * abs (x - mean) / 1)%float.

(** The band around the prediction [p] after the single prediction [x]
    is the point [p], and the actual value [actual] is not inside it. *)
Definition single_point_band_flags (x p actual : PrimFloat.float) : bool :=
  let upper := (p + single_point_std x * 2)%float in
  let lower := (p - single_point_std x * 2)%float in
  (upper =? p)%float && (lower =? p)%float
  && negb ((actual <? upper)%float && (lower <? actual)%float).

Definition single_point_checks : bool :=
  single_point_band_flags 0.1 0.1 0.1
  && single_point_band_flags 0.1 0.3 0.3
  && single_point_band_flags 1e308 (-2.5) 7
  && single_point_band_flags 5e-324 0 0
  && single_point_band_flags (-3) 1e300 1e300.

End Binary64.

(** ** The specification's formulas *)

(** The sample standard deviation (divisor [n - 1]) of the specification's
    bound estimator, taken as 0 on a single point. *)
Definition spec_sample_std (a : list R) : R :=
  match a with
  | [] | [_] => 0%R
  | _ :: _ :: _ =>
      sqrt (np_sum (map (fun x => ((x - np_mean a) ^ 2)%R) a)
            / (INR (length a) - 1))%R
  end.

(** The specification's upper and lower bound at index [i], with
    multiplier [k] and the window [predict[0..i]], [i] included. *)
Definition spec_upper_bound (k : R) (predicted : list R) (i : nat) : R :=
  (nth i predicted 0 + k * spec_sample_std (firstn (S i) predicted))%R.

Definition spec_lower_bound (k : R) (predicted : list R) (i : nat) : R :=
  (nth i predicted 0 - k * spec_sample_std (firstn (S i) predicted))%R.

(** The specification's split point for a holdout ratio [r]. *)
Definition spec_split_point (n : nat) (r : Q) : Z :=
  Qfloor (inject_Z (Z.of_nat n) * (1 - r))%Q.

(** * Properties *)

(** ** Lists built over [range(n)] *)

Lemma nth_map_seq (A : Type) (f : nat -> A) (n i : nat) (d : A) :
  (i < n)%nat -> nth i (map f (seq 0 n)) d = f i.
Proof.
  intros Hi.
  rewrite (nth_indep _ d (f 0%nat)) by (rewrite length_map, length_seq; exact Hi).
  rewrite map_nth, seq_nth by exact Hi.
  reflexivity.
Qed.

Lemma nth_error_map_seq (A : Type) (f : nat -> A) (n i : nat) :
  (i < n)%nat -> nth_error (map f (seq 0 n)) i = Some (f i).
Proof.
  intros Hi.
  rewrite nth_error_map, nth_error_seq.
  destruct (Nat.ltb_spec i n) as [_ | Hge]; [reflexivity | lia].
Qed.

(** ** Floats *)

Lemma ltb_nan_r (a : float) : Float.ltb a NaN = false.
Proof. destruct a; reflexivity. Qed.

Lemma ltb_nan_l (a : float) : Float.ltb NaN a = false.
Proof. reflexivity. Qed.

Lemma ltb_Num (x z : R) : Float.ltb (Num x) (Num z) = true <-> (x < z)%R.
Proof.
  unfold Float.ltb.
  destruct (Rlt_dec x z) as [Hlt | Hnlt]; split; intro H;
    try reflexivity; try assumption; try discriminate; contradiction.
Qed.

Lemma leb_Num (x z : R) : Float.leb (Num x) (Num z) = true <-> (x <= z)%R.
Proof.
  unfold Float.leb.
  destruct (Rle_dec x z) as [Hle | Hnle]; split; intro H;
    try reflexivity; try assumption; try discriminate; contradiction.
Qed.

(** ** Standard deviation *)

Lemma population_std_nonneg (a : list R) : (0 <= population_std a)%R.
Proof. unfold population_std. apply sqrt_pos. Qed.

Lemma np_std_firstn (predicted : list R) (i : nat) :
  (1 <= i <= length predicted)%nat ->
  np_std (firstn i predicted) = Num (population_std (firstn i predicted)).
Proof.
  intros [H1 H2].
  destruct i as [| i]; [lia |].
  destruct predicted as [| x rest]; [simpl in H2; lia |].
  reflexivity.
Qed.

Lemma population_std_single (x : R) : population_std [x] = 0%R.
Proof.
  unfold population_std, np_mean, np_sum. simpl.
  replace ((x + 0) / 1)%R with x by field.
  replace (x - x)%R with 0%R by ring.
  rewrite Rabs_R0.
  replace ((0 * (0 * 1) + 0) / 1)%R with 0%R by field.
  apply sqrt_0.
Qed.

(** ** The bound estimator *)

Lemma column_firstn (df : DataFrame) (i : nat) :
  column (firstn i df) = firstn i (column df).
Proof. unfold column. symmetry. apply firstn_map. Qed.

Lemma length_upper_bound (forecast : DataFrame) :
  length (upper_bound forecast) = length forecast.
Proof. unfold upper_bound. now rewrite length_map, length_seq. Qed.

Lemma length_lower_bound (forecast : DataFrame) :
  length (lower_bound forecast) = length forecast.
Proof. unfold lower_bound. now rewrite length_map, length_seq. Qed.

Lemma upper_bound_nth (forecast : DataFrame) (i : nat) :
  (i < length forecast)%nat ->
  nth i (upper_bound forecast) NaN =
  Float.add (Num (nth i (column forecast) 0%R))
            (Float.mul (np_std (firstn i (column forecast))) (Num 2)).
Proof.
  intros Hi. unfold upper_bound.
  rewrite nth_map_seq by exact Hi.
  now rewrite column_firstn.
Qed.

Lemma lower_bound_nth (forecast : DataFrame) (i : nat) :
  (i < length forecast)%nat ->
  nth i (lower_bound forecast) NaN =
  Float.sub (Num (nth i (column forecast) 0%R))
            (Float.mul (np_std (firstn i (column forecast))) (Num 2)).
Proof.
  intros Hi. unfold lower_bound.
  rewrite nth_map_seq by exact Hi.
  now rewrite column_firstn.
Qed.

Lemma upper_bound_0 (forecast : DataFrame) :
  forecast <> [] -> nth 0 (upper_bound forecast) NaN = NaN.
Proof.
  intros Hne. destruct forecast as [| r rest]; [contradiction |].
  reflexivity.
Qed.

Lemma lower_bound_0 (forecast : DataFrame) :
  forecast <> [] -> nth 0 (lower_bound forecast) NaN = NaN.
Proof.
  intros Hne. destruct forecast as [| r rest]; [contradiction |].
  reflexivity.
Qed.

(** ** The anomaly classifier *)

Lemma anomaly_flag_cases (actual : R) (lower upper : float) :
  anomaly_flag actual lower upper = 0%Z \/ anomaly_flag actual lower upper = 1%Z.
Proof.
  unfold anomaly_flag.
  destruct (Float.ltb (Num actual) upper && Float.gtb (Num actual) lower);
    [left | right]; reflexivity.
Qed.

(** The flag is 0 exactly when both bounds are numbers and the actual
    value lies strictly between them. *)
Lemma anomaly_flag_0 (actual : R) (lower upper : float) :
  anomaly_flag actual lower upper = 0%Z <->
  exists lo up : R, lower = Num lo /\ upper = Num up /\ (lo < actual < up)%R.
Proof.
  unfold anomaly_flag, Float.gtb. split.
  - destruct (Float.ltb (Num actual) upper) eqn:Hu;
      destruct (Float.ltb lower (Num actual)) eqn:Hl; simpl; try discriminate.
    intros _.
    destruct upper as [| up]; [discriminate |].
    destruct lower as [| lo]; [discriminate |].
    apply ltb_Num in Hu. apply ltb_Num in Hl.
    exists lo, up. repeat split; assumption.
  - intros (lo & up & -> & -> & Hlo & Hup).
    apply ltb_Num in Hlo. apply ltb_Num in Hup.
    now rewrite Hlo, Hup.
Qed.

Lemma anomaly_flag_1 (actual : R) (lower upper : float) :
  anomaly_flag actual lower upper = 1%Z <->
  ~ (exists lo up : R, lower = Num lo /\ upper = Num up /\ (lo < actual < up)%R).
Proof.
  rewrite <- anomaly_flag_0.
  destruct (anomaly_flag_cases actual lower upper) as [H | H]; rewrite H;
    split; intro H'; try reflexivity; try discriminate.
  - exfalso. now apply H'.
Qed.

Lemma anomaly_flag_nan_upper (actual : R) (lower : float) :
  anomaly_flag actual lower NaN = 1%Z.
Proof. reflexivity. Qed.

Lemma anomaly_flag_on_bound (actual : R) (lower upper : float) :
  lower = Num actual \/ upper = Num actual ->
  anomaly_flag actual lower upper = 1%Z.
Proof.
  intros H. apply anomaly_flag_1.
  intros (lo & up & Hlo & Hup & Hlt1 & Hlt2).
  destruct H as [H | H]; rewrite H in *.
  - injection Hlo as <-. lra.
  - injection Hup as <-. lra.
Qed.

Lemma index_length (forecast test : DataFrame) :
  index forecast = index test -> length forecast = length test.
Proof.
  intros H. unfold index in H.
  rewrite <- (length_map fst forecast), <- (length_map fst test).
  now rewrite H.
Qed.

Lemma length_evaluation (forecast test : DataFrame) :
  index forecast = index test ->
  length (evaluation forecast test) = length test.
Proof.
  intros H. apply index_length in H.
  unfold evaluation, column.
  rewrite length_map, length_seq, length_combine, length_map. lia.
Qed.

(** Row [i] of the frame that [evaluation] builds. *)
Lemma evaluation_nth (forecast test : DataFrame) (i : nat) :
  index forecast = index test ->
  (i < length test)%nat ->
  nth_error (evaluation forecast test) i =
  Some {| ds := fst (nth i test (0%Z, 0%R));
          y := snd (nth i test (0%Z, 0%R));
          predict := nth i (column forecast) 0%R;
          LowerBound := nth i (lower_bound forecast) NaN;
          UpperBound := nth i (upper_bound forecast) NaN;
          WithinUpperBounds :=
            Float.ltb (Num (nth i (column forecast) 0%R))
                      (nth i (upper_bound forecast) NaN);
          WithinLowerBounds :=
            Float.gtb (Num (nth i (column forecast) 0%R))
                      (nth i (lower_bound forecast) NaN);
          Anomaly :=
            anomaly_flag (snd (nth i test (0%Z, 0%R)))
                         (nth i (lower_bound forecast) NaN)
                         (nth i (upper_bound forecast) NaN) |}.
Proof.
  intros Hidx Hi.
  pose proof (index_length _ _ Hidx) as Hlen.
  unfold evaluation.
  assert (Hc : length (combine test (column forecast)) = length test).
  { unfold column. rewrite length_combine, length_map. lia. }
  rewrite Hc, nth_error_map_seq by exact Hi.
  rewrite combine_nth by (unfold column; rewrite length_map; lia).
  destruct (nth i test (0%Z, 0%R)) as [t actual]. reflexivity.
Qed.

(** ** Bounds after the first index *)

(** From index 1 on the window [forecast[:i]] is not empty: both bounds
    are numbers, at the same distance of the prediction. *)
Lemma bounds_nth (forecast : DataFrame) (i : nat) :
  (1 <= i < length forecast)%nat ->
  nth i (upper_bound forecast) NaN =
    Num (nth i (column forecast) 0 + population_std (firstn i (column forecast)) * 2)%R /\
  nth i (lower_bound forecast) NaN =
    Num (nth i (column forecast) 0 - population_std (firstn i (column forecast)) * 2)%R.
Proof.
  intros [H1 Hi].
  assert (Hstd : np_std (firstn i (column forecast)) =
                 Num (population_std (firstn i (column forecast)))).
  { apply np_std_firstn. unfold column. rewrite length_map. lia. }
  rewrite upper_bound_nth, lower_bound_nth by exact Hi.
  rewrite Hstd. split; reflexivity.
Qed.

(** From index 1 on the band contains the point prediction. *)
Lemma band_contains_prediction_from_1 (forecast : DataFrame) (i : nat) :
  (1 <= i < length forecast)%nat ->
  Float.geb (nth i (upper_bound forecast) NaN) (Num (nth i (column forecast) 0%R)) = true /\
  Float.geb (Num (nth i (column forecast) 0%R)) (nth i (lower_bound forecast) NaN) = true.
Proof.
  intros Hi.
  destruct (bounds_nth forecast Hi) as [-> ->].
  pose proof (population_std_nonneg (firstn i (column forecast))) as Hs.
  unfold Float.geb. split; apply leb_Num; lra.
Qed.

(** C1 (as amended).  For every forecast of length n and every index
    1 <= i < n, the bound estimator of [evaluation] returns
    upperBound[i] = predict[i] + 2 * s and lowerBound[i] = predict[i] - 2 * s,
    where s is the population standard deviation (divisor: the number of
    points) of the predictions of index 0 to i - 1, index i excluded: a
    growing window over the forecast curve, whose standard deviation is
    the square root of the mean squared distance to the window's mean. *)
Theorem bound_estimator_growing_window (forecast : DataFrame) (i : nat) :
  (1 <= i < length forecast)%nat ->
  let window := firstn i (column forecast) in
  let s := sqrt (np_sum (map (fun x => (Rabs (x - np_mean window) ^ 2)%R) window)
                 / INR (length window))%R in
  length window = i /\
  (forall j, (j < i)%nat -> nth j window 0%R = nth j (column forecast) 0%R) /\
  np_std window = Num s /\
  nth i (upper_bound forecast) NaN = Num (nth i (column forecast) 0 + s * 2)%R /\
  nth i (lower_bound forecast) NaN = Num (nth i (column forecast) 0 - s * 2)%R.
Proof.
  intros Hi window s.
  assert (Hlen : length window = i).
  { unfold window, column. rewrite length_firstn, length_map. lia. }
  assert (Hs : s = population_std window).
  { unfold s, population_std, np_mean. now rewrite length_map. }
  split; [exact Hlen |].
  split.
  { intros j Hj. unfold window. now rewrite nth_firstn, (proj2 (Nat.ltb_lt j i) Hj). }
  split.
  { rewrite Hs. apply np_std_firstn. unfold column. rewrite length_map. lia. }
  rewrite Hs. exact (bounds_nth forecast Hi).
Qed.

Lemma bound_estimator_growing_window_witness :
  let forecast : DataFrame := [(0%Z, 10%R); (3600%Z, 12%R); (7200%Z, 11%R)] in
  let window := [10%R; 12%R] in
  let s := sqrt (np_sum (map (fun x => (Rabs (x - np_mean window) ^ 2)%R) window)
                 / INR (length window))%R in
  nth 2 (upper_bound forecast) NaN = Num (11 + s * 2) /\
  nth 2 (lower_bound forecast) NaN = Num (11 - s * 2).
Proof.
  intros forecast window s.
  assert (Hi : (1 <= 2 < length forecast)%nat) by (simpl; lia).
  exact (proj2 (proj2 (proj2 (bound_estimator_growing_window forecast Hi)))).
Defined.

(** C1, counterexample.  On the forecast 10, 12 the code's bounds at index
    1 are both 12 (the window holds the single prediction 10), whereas the
    claim's window 10, 12 has a positive standard deviation, whichever
    divisor is taken. *)
Lemma bound_estimator_window_counterexample :
  let forecast : DataFrame := [(0%Z, 10%R); (3600%Z, 12%R)] in
  nth 1 (upper_bound forecast) NaN = Num 12 /\
  nth 1 (lower_bound forecast) NaN = Num 12 /\
  Num 12 <> Num (spec_upper_bound 2 (column forecast) 1) /\
  Num 12 <> Num (spec_lower_bound 2 (column forecast) 1) /\
  Num 12 <> Num (12 + 2 * population_std (firstn 2 (column forecast)))%R.
Proof.
  intros forecast.
  assert (Hi : (1 <= 1 < length forecast)%nat) by (simpl; lia).
  destruct (bounds_nth forecast Hi) as [Hu Hl].
  assert (Hsample : (0 < spec_sample_std [10; 12])%R).
  { unfold spec_sample_std. apply sqrt_lt_R0.
    unfold np_mean, np_sum. simpl.
    match goal with |- (0 < ?e)%R => replace e with 2%R by field end. lra. }
  assert (Hpop : (0 < population_std [10; 12])%R).
  { unfold population_std. apply sqrt_lt_R0.
    unfold np_mean, np_sum. simpl.
    replace ((10 + (12 + 0)) / (1 + 1))%R with 11%R by lra.
    replace (10 - 11)%R with (- (1))%R by lra.
    replace (12 - 11)%R with 1%R by lra.
    rewrite Rabs_Ropp, Rabs_R1.
    match goal with |- (0 < ?e)%R => replace e with 1%R by field end. lra. }
  repeat split.
  - rewrite Hu. simpl. rewrite population_std_single. f_equal. lra.
  - rewrite Hl. simpl. rewrite population_std_single. f_equal. lra.
  - unfold spec_upper_bound.
    change (firstn 2 (column forecast)) with [10%R; 12%R].
    change (nth 1 (column forecast) 0%R) with 12%R.
    set (s := spec_sample_std [10%R; 12%R]) in *. clearbody s.
    intros Heq. injection Heq as Heq. lra.
  - unfold spec_lower_bound.
    change (firstn 2 (column forecast)) with [10%R; 12%R].
    change (nth 1 (column forecast) 0%R) with 12%R.
    set (s := spec_sample_std [10%R; 12%R]) in *. clearbody s.
    intros Heq. injection Heq as Heq. lra.
  - change (firstn 2 (column forecast)) with [10%R; 12%R].
    set (s := population_std [10%R; 12%R]) in *. clearbody s.
    intros Heq. injection Heq as Heq. lra.
Qed.

(** ** The first index *)

(** C2 (the code at the failing input).  On the one-point forecast 10 the
    window [forecast[:0]] is empty, [np.std] of it is NaN and so are both
    bounds: neither is the point prediction 10, and a test value equal to
    the prediction is flagged. *)
Theorem bounds_at_index_0_are_nan :
  let forecast : DataFrame := [(0%Z, 10%R)] in
  let test : DataFrame := [(0%Z, 10%R)] in
  np_std (column (firstn 0 forecast)) = NaN /\
  lower_bound forecast = [NaN] /\
  upper_bound forecast = [NaN] /\
  nth 0 (lower_bound forecast) NaN <> Num 10 /\
  nth 0 (upper_bound forecast) NaN <> Num 10 /\
  evaluation forecast test =
    [ {| ds := 0%Z; y := 10%R; predict := 10%R;
         LowerBound := NaN; UpperBound := NaN;
         WithinUpperBounds := false; WithinLowerBounds := false;
         Anomaly := 1%Z |} ].
Proof.
  intros forecast test.
  repeat split; try reflexivity; simpl; discriminate.
Qed.

(** C8 (the code at the failing input).  On the one-point forecast 10 the
    band of index 0 does not contain the prediction: both comparisons
    [upperBound[0] >= predict[0]] and [predict[0] >= lowerBound[0]] are
    false, the bounds being NaN. *)
Theorem band_at_index_0_misses_prediction :
  let forecast : DataFrame := [(0%Z, 10%R)] in
  nth 0 (column forecast) 0%R = 10%R /\
  Float.geb (nth 0 (upper_bound forecast) NaN) (Num 10) = false /\
  Float.geb (Num 10) (nth 0 (lower_bound forecast) NaN) = false.
Proof.
  intros forecast. repeat split.
Qed.





(** The boundary test of the classifier: after the predictions 9 and 11
    the prediction 10 has the band 8 to 12; the actual values 8 and 12 are
    flagged, 8.0001 is not. *)
Example classifier_boundary :
  let forecast : DataFrame := [(0%Z, 9%R); (3600%Z, 11%R); (7200%Z, 10%R)] in
  nth 2 (lower_bound forecast) NaN = Num 8 /\
  nth 2 (upper_bound forecast) NaN = Num 12 /\
  anomaly_flag 8 (Num 8) (Num 12) = 1%Z /\
  anomaly_flag 8.0001 (Num 8) (Num 12) = 0%Z /\
  anomaly_flag 12 (Num 8) (Num 12) = 1%Z.
Proof.
  intros forecast.
  assert (Hi : (1 <= 2 < length forecast)%nat) by (simpl; lia).
  destruct (bounds_nth forecast Hi) as [Hu Hl].
  assert (Hstd : population_std [9%R; 11%R] = 1%R).
  { unfold population_std, np_mean, np_sum. simpl.
    replace ((9 + (11 + 0)) / (1 + 1))%R with 10%R by lra.
    replace (9 - 10)%R with (- (1))%R by lra.
    replace (11 - 10)%R with 1%R by lra.
    rewrite Rabs_Ropp, Rabs_R1.
    match goal with |- sqrt ?e = _ => replace e with 1%R by field end.
    apply sqrt_1. }
  change (firstn 2 (column forecast)) with [9%R; 11%R] in Hu, Hl.
  change (nth 2 (column forecast) 0%R) with 10%R in Hu, Hl.
  rewrite Hstd in Hu, Hl.
  repeat split.
  - rewrite Hl. f_equal. lra.
  - rewrite Hu. f_equal. lra.
  - apply anomaly_flag_on_bound. now left.
  - apply anomaly_flag_0. exists 8%R, 12%R. repeat split; lra.
  - apply anomaly_flag_on_bound. now right.
Qed.

(** ** The train/test split *)

Lemma insert_row_perm (r : Z * R) (l : DataFrame) :
  Permutation (insert_row r l) (r :: l).
Proof.
  induction l as [| h rest IH]; simpl.
  - apply Permutation_refl.
  - destruct (fst r <=? fst h)%Z.
    + apply Permutation_refl.
    + eapply Permutation_trans; [apply perm_skip, IH | apply perm_swap].
Qed.

Lemma sort_values_perm (df : DataFrame) : Permutation (sort_values df) df.
Proof.
  induction df as [| r rest IH]; simpl.
  - apply perm_nil.
  - eapply Permutation_trans; [apply insert_row_perm | apply perm_skip, IH].
Qed.

Lemma length_sort_values (df : DataFrame) :
  length (sort_values df) = length df.
Proof. apply Permutation_length, sort_values_perm. Qed.

Lemma insert_row_sorted (r : Z * R) (l : DataFrame) :
  StronglySorted chronological l ->
  StronglySorted chronological (insert_row r l).
Proof.
  induction 1 as [| h rest Hs IH Hall]; simpl.
  - constructor; constructor.
  - destruct (Z.leb_spec (fst r) (fst h)) as [Hle | Hgt].
    + constructor; [constructor; assumption |].
      constructor; [exact Hle |].
      eapply Forall_impl; [| exact Hall].
      unfold chronological. intros b Hb. lia.
    + constructor; [exact IH |].
      apply (Permutation_Forall (Permutation_sym (insert_row_perm r rest))).
      constructor; [unfold chronological; lia | exact Hall].
Qed.

Lemma sort_values_sorted (df : DataFrame) :
  StronglySorted chronological (sort_values df).
Proof.
  induction df as [| r rest IH]; simpl.
  - constructor.
  - apply insert_row_sorted, IH.
Qed.

(** A frame whose timestamps already increase is left as it is. *)
Lemma sort_values_of_sorted (df : DataFrame) :
  Sorted Z.le (index df) -> sort_values df = df.
Proof.
  induction df as [| r rest IH]; intros Hs; [reflexivity |].
  simpl in *. inversion Hs as [| ? ? Hrest Hhd]; subst.
  rewrite (IH Hrest).
  destruct rest as [| h rest']; [reflexivity |].
  simpl in *. inversion Hhd as [| ? ? Hle]; subst.
  now rewrite (proj2 (Z.leb_le _ _) Hle).
Qed.

Lemma sorted_app_order (l1 l2 : DataFrame) :
  StronglySorted chronological (l1 ++ l2) ->
  forall a b, In a l1 -> In b l2 -> (fst a <= fst b)%Z.
Proof.
  induction l1 as [| h rest IH]; intros Hs a b Ha Hb; [contradiction |].
  simpl in Hs. inversion Hs as [| ? ? Hrest Hall]; subst.
  destruct Ha as [<- | Ha].
  - rewrite Forall_forall in Hall. apply Hall, in_or_app. now right.
  - now apply IH.
Qed.

Lemma nodup_app_distinct (l1 l2 : DataFrame) :
  NoDup (index (l1 ++ l2)) ->
  forall a b, In a l1 -> In b l2 -> fst a <> fst b.
Proof.
  unfold index. rewrite map_app.
  induction l1 as [| h rest IH]; intros Hnd a b Ha Hb; [contradiction |].
  simpl in Hnd. inversion Hnd as [| ? ? Hnotin Hnd']; subst.
  destruct Ha as [<- | Ha].
  - intros Heq. apply Hnotin, in_or_app. right.
    rewrite Heq. now apply in_map.
  - now apply IH.
Qed.

(** The split point: [int(n * (1 - 0.2))] is the integer part of 4n/5. *)
Lemma split_size (n : nat) :
  Py.int (inject_Z (Z.of_nat n) * (1 - 0.2))%Q = (4 * Z.of_nat n / 5)%Z.
Proof.
  unfold Py.int.
  change (inject_Z (Z.of_nat n) * (1 - 0.2))%Q
    with (Qmake (Z.of_nat n * 8) 10).
  cbn [Qnum Qden].
  rewrite Z.quot_div_nonneg by lia.
  Z.div_mod_to_equations. lia.
Qed.

Lemma split_size_floor (n : nat) :
  Py.int (inject_Z (Z.of_nat n) * (1 - 0.2))%Q = spec_split_point n 0.2%Q.
Proof.
  unfold Py.int, spec_split_point, Qfloor.
  change (inject_Z (Z.of_nat n) * (1 - 0.2))%Q
    with (Qmake (Z.of_nat n * 8) 10).
  cbn [Qnum Qden]. apply Z.quot_div_nonneg; lia.
Qed.

Lemma split_data_eq (dataframe : DataFrame) :
  split_data dataframe =
  (firstn (Z.to_nat (4 * Z.of_nat (length dataframe) / 5)) (sort_values dataframe),
   skipn (Z.to_nat (4 * Z.of_nat (length dataframe) / 5)) (sort_values dataframe)).
Proof.
  unfold split_data. cbv zeta.
  now rewrite length_sort_values, split_size.
Qed.

Lemma split_point_le (n : nat) : (Z.to_nat (4 * Z.of_nat n / 5) <= n)%nat.
Proof.
  assert (0 <= 4 * Z.of_nat n / 5 <= Z.of_nat n)%Z
    by (Z.div_mod_to_equations; lia).
  lia.
Qed.

Lemma split_data_lengths (dataframe : DataFrame) :
  (length (fst (split_data dataframe)) + length (snd (split_data dataframe))
   = length dataframe)%nat.
Proof.
  rewrite split_data_eq. cbn [fst snd].
  rewrite <- length_app, firstn_skipn. apply length_sort_values.
Qed.

(** Both parts of the split are in time order. *)
Lemma split_data_parts_sorted (dataframe : DataFrame) :
  Sorted Z.le (index (fst (split_data dataframe))) /\
  Sorted Z.le (index (snd (split_data dataframe))).
Proof.
  rewrite split_data_eq. cbn [fst snd].
  set (size := Z.to_nat (4 * Z.of_nat (length dataframe) / 5)).
  pose proof (sort_values_sorted dataframe) as Hs.
  rewrite <- (firstn_skipn size (sort_values dataframe)) in Hs.
  assert (Hmap : forall l : DataFrame,
            StronglySorted chronological l -> Sorted Z.le (index l)).
  { intros l Hl. apply StronglySorted_Sorted.
    induction Hl as [| r rest _ IH Hall]; simpl; constructor;
      [exact IH |].
    unfold index. rewrite Forall_map. exact Hall. }
  split; apply Hmap.
  - clear - Hs. induction (firstn size (sort_values dataframe)) as [| r l IH];
      [constructor |].
    simpl in Hs. inversion Hs as [| ? ? Hrest Hall]; subst.
    constructor; [now apply IH |].
    rewrite Forall_app in Hall. tauto.
  - clear - Hs. induction (firstn size (sort_values dataframe)) as [| r l IH];
      [exact Hs |].
    simpl in Hs. inversion Hs; subst. now apply IH.
Qed.

(** C4 (as amended).  The notebook's splitter has no ratio parameter: the
    holdout ratio is the constant 0.2.  For every series of length n,
    [split_data] returns as train the first floor(n * (1 - 0.2)) rows of
    the series in chronological order and as test the remaining rows, so
    that len(train) + len(test) = n, the two parts together are the rows of
    the series, no train timestamp is later than a test timestamp, and
    every train timestamp is strictly before every test timestamp when the
    timestamps are distinct; a series whose timestamps already increase
    strictly is cut as it stands, train a prefix and test the suffix. *)
Theorem split_data_chronological_prefix (dataframe : DataFrame) :
  let n := length dataframe in
  let train := fst (split_data dataframe) in
  let test := snd (split_data dataframe) in
  train ++ test = sort_values dataframe /\
  Permutation (train ++ test) dataframe /\
  StronglySorted chronological (train ++ test) /\
  Z.of_nat (length train) = spec_split_point n 0.2%Q /\
  Z.of_nat (length train) = (4 * Z.of_nat n / 5)%Z /\
  (length train + length test = n)%nat /\
  (forall a b, In a train -> In b test -> (fst a <= fst b)%Z) /\
  (NoDup (index dataframe) ->
   forall a b, In a train -> In b test -> (fst a < fst b)%Z) /\
  (StronglySorted Z.lt (index dataframe) ->
   train = firstn (length train) dataframe /\
   test = skipn (length train) dataframe).
Proof.
  intros n train test.
  unfold train, test. rewrite split_data_eq. cbn [fst snd]. fold n.
  set (size := Z.to_nat (4 * Z.of_nat n / 5)).
  set (sorted := sort_values dataframe).
  assert (Happ : firstn size sorted ++ skipn size sorted = sorted)
    by apply firstn_skipn.
  assert (Hsize : (size <= n)%nat) by apply split_point_le.
  assert (Hlen : length (firstn size sorted) = size).
  { rewrite length_firstn. unfold sorted. rewrite length_sort_values.
    fold n. lia. }
  assert (Hsorted : StronglySorted chronological sorted)
    by apply sort_values_sorted.
  assert (Hperm : Permutation sorted dataframe) by apply sort_values_perm.
  assert (Hle : forall a b, In a (firstn size sorted) ->
                 In b (skipn size sorted) -> (fst a <= fst b)%Z).
  { apply sorted_app_order. now rewrite Happ. }
  split; [exact Happ |].
  split; [now rewrite Happ |].
  split; [now rewrite Happ |].
  split.
  { rewrite Hlen, <- split_size_floor, split_size. unfold size.
    apply Z2Nat.id. Z.div_mod_to_equations; lia. }
  split.
  { rewrite Hlen. unfold size. apply Z2Nat.id. Z.div_mod_to_equations; lia. }
  split.
  { rewrite <- length_app, Happ. apply length_sort_values. }
  split; [exact Hle |].
  split.
  - intros Hnd a b Ha Hb.
    assert (Hneq : fst a <> fst b).
    { apply (@nodup_app_distinct (firstn size sorted) (skipn size sorted));
        try assumption.
      rewrite Happ. unfold index.
      apply (Permutation_NoDup (l := map fst dataframe)); [| exact Hnd].
      apply Permutation_map, Permutation_sym, Hperm. }
    specialize (Hle a b Ha Hb). lia.
  - intros Hs. rewrite Hlen. unfold sorted.
    assert (Hle' : Sorted Z.le (index dataframe)).
    { apply StronglySorted_Sorted.
      clear - Hs. induction Hs as [| t rest _ IH Hall]; constructor;
        [exact IH |].
      eapply Forall_impl; [| exact Hall]. intros; lia. }
    now rewrite (sort_values_of_sorted dataframe Hle').
Qed.

(** C4, counterexample.  On a series of 10 points [split_data] returns a
    train set of 8 points; the claim's split point for the holdout ratio
    0.5, floor(10 * (1 - 0.5)), is 5. *)
Lemma split_data_ratio_counterexample :
  let series : DataFrame :=
    [(0%Z, 1%R); (3600%Z, 2%R); (7200%Z, 3%R); (10800%Z, 4%R); (14400%Z, 5%R);
     (18000%Z, 6%R); (21600%Z, 7%R); (25200%Z, 8%R); (28800%Z, 9%R);
     (32400%Z, 10%R)] in
  let r : Q := 0.5%Q in
  (0 < r)%Q /\ (r < 1)%Q /\
  length series = 10%nat /\
  length (fst (split_data series)) = 8%nat /\
  spec_split_point (length series) r = 5%Z /\
  Z.of_nat (length (fst (split_data series))) <> spec_split_point (length series) r.
Proof.
  intros series r.
  assert (Htrain : length (fst (split_data series)) = 8%nat) by reflexivity.
  assert (Hspec : spec_split_point (length series) r = 5%Z) by reflexivity.
  repeat split; try reflexivity.
  rewrite Htrain, Hspec. discriminate.
Qed.

(** C5 (as amended).  [split_data] has no check on the size of the
    parts: for every series, however short, the call returns the
    partition (train, test) with len(train) + len(test) = len(series) and
    raises no exception. *)
Theorem split_data_always_returns (series : DataFrame) :
  exists train test : DataFrame,
    Py.call split_data series = Py.Returns (train, test) /\
    (length train + length test = length series)%nat /\
    forall exc : string, Py.call split_data series <> Py.Raises exc.
Proof.
  exists (fst (split_data series)), (snd (split_data series)).
  split; [unfold Py.call; now destruct (split_data series) |].
  split; [apply split_data_lengths | discriminate].
Qed.

(** C5, counterexample.  With the seasonal period 24, a series of one
    point is shorter than 2 * (24 + 1) and its train part, empty, has
    fewer than 24 + 1 points; [split_data] returns the partition all the
    same. *)
Lemma split_data_short_series_counterexample :
  let series : DataFrame := [(0%Z, 1%R)] in
  let seasonalPeriod := 24%nat in
  (length series < 2 * (seasonalPeriod + 1))%nat /\
  (length (fst (split_data series)) < seasonalPeriod + 1)%nat /\
  Py.call split_data series = Py.Returns ([], series) /\
  Py.call split_data series <> Py.Raises "InsufficientData".
Proof.
  intros series seasonalPeriod.
  assert (Hsplit : split_data series = ([], series)) by reflexivity.
  unfold Py.call. rewrite Hsplit.
  repeat split; simpl; try lia; discriminate.
Qed.

(** ** The seasonal period and the model's arguments *)

Lemma sfrequency_of_known :
  sfrequency_of "1h" = 24%Z /\ sfrequency_of "30Min" = 48%Z /\
  sfrequency_of "15Min" = 96%Z /\ sfrequency_of "1d" = 1%Z.
Proof. repeat split. Qed.

Lemma sfrequency_of_unknown (freq : string) :
  freq <> "1h"%string -> freq <> "30Min"%string ->
  freq <> "15Min"%string -> freq <> "1d"%string ->
  sfrequency_of freq = 0%Z.
Proof.
  intros H1 H2 H3 H4. unfold sfrequency_of.
  apply String.eqb_neq in H1, H2, H3, H4.
  now rewrite H1, H2, H3, H4.
Qed.

Lemma frame_of_aligned (values : list R) (idx : list Z) :
  length values = length idx ->
  frame_of values idx = Py.Returns (combine idx values).
Proof.
  intros H. unfold frame_of. now rewrite H, Nat.eqb_refl.
Qed.

Lemma frame_of_index (values : list R) (idx : list Z) (frame : DataFrame) :
  frame_of values idx = Py.Returns frame -> index frame = idx.
Proof.
  unfold frame_of.
  destruct (Nat.eqb_spec (length values) (length idx)) as [Hlen | _];
    [| discriminate].
  intros H. injection H as <-.
  unfold index. clear - Hlen. revert values Hlen.
  induction idx as [| t idx IH]; intros [| v values] Hlen;
    simpl in *; try reflexivity; try discriminate.
  f_equal. apply IH. lia.
Qed.

Section SarimaProperties.

Variables Model ModelFit : Type.
Variable SARIMAX : SARIMAX_args -> Py.outcome Model.
Variable fit : Model -> Py.outcome ModelFit.
Variable residual_diagnostics : ModelFit -> Py.outcome unit.
Variable forecast_of : ModelFit -> nat -> Py.outcome (list R).
Variable forecast_plots : DataFrame -> DataFrame -> Py.outcome unit.

(** What a returning call of [_sarima] went through. *)
Lemma _sarima_returns (train test : DataFrame) (freq : string)
      (model : Model) (model_fit : ModelFit) (forecast : DataFrame) :
  _sarima SARIMAX fit residual_diagnostics forecast_of forecast_plots
          train test freq
    = Py.Returns (model, model_fit, forecast) ->
  SARIMAX (sarimax_args train freq) = Py.Returns model /\
  fit model = Py.Returns model_fit /\
  exists values, forecast_of model_fit (length test) = Py.Returns values /\
                 frame_of values (index test) = Py.Returns forecast.
Proof.
  unfold _sarima.
  destruct (SARIMAX (sarimax_args train freq)) as [m |] eqn:Hm;
    [| discriminate].
  simpl. destruct (fit m) as [mf |] eqn:Hf; [| discriminate].
  simpl. destruct (residual_diagnostics mf) as [[] |]; [| discriminate].
  simpl. destruct (forecast_of mf (length test)) as [values |] eqn:Hv;
    [| discriminate].
  simpl. destruct (frame_of values (index test)) as [frame |] eqn:Hframe;
    [| discriminate].
  simpl. destruct (forecast_plots frame test) as [[] |]; [| discriminate].
  simpl. intros H. injection H as <- <- <-.
  split; [reflexivity |]. split; [exact Hf |].
  exists values. split; [exact Hv | exact Hframe].
Qed.

(** The forecast of [_sarima] has the index of the test set, as
    [evaluation] expects. *)
Lemma _sarima_forecast_index (train test : DataFrame) (freq : string)
      (model : Model) (model_fit : ModelFit) (forecast : DataFrame) :
  _sarima SARIMAX fit residual_diagnostics forecast_of forecast_plots
          train test freq
    = Py.Returns (model, model_fit, forecast) ->
  index forecast = index test.
Proof.
  intros H. apply _sarima_returns in H.
  destruct H as (_ & _ & values & _ & Hframe).
  eapply frame_of_index. exact Hframe.
Qed.

(** The construction of the model is the first statement that can fail:
    its error is the error of [_sarima]. *)
Lemma _sarima_construction_error (train test : DataFrame) (freq exc : string) :
  SARIMAX (sarimax_args train freq) = Py.Raises exc ->
  _sarima SARIMAX fit residual_diagnostics forecast_of forecast_plots
          train test freq
    = Py.Raises exc.
Proof. intros H. unfold _sarima. now rewrite H. Qed.

End SarimaProperties.

(** C6 (as amended).  [_sarima] has no check of the frequency and no
    InvalidCadence failure: for every frequency string other than '1h',
    '30Min', '15Min' and '1d' the seasonal period keeps its initial value
    0 and the code goes on to call [SARIMAX] with the seasonal order
    (2, 2, 2, 0); when that call raises, its error is the error of
    [_sarima]. *)
Theorem unknown_frequency_period_0
  (Model ModelFit : Type)
  (SARIMAX : SARIMAX_args -> Py.outcome Model)
  (fit : Model -> Py.outcome ModelFit)
  (residual_diagnostics : ModelFit -> Py.outcome unit)
  (forecast_of : ModelFit -> nat -> Py.outcome (list R))
  (forecast_plots : DataFrame -> DataFrame -> Py.outcome unit)
  (train test : DataFrame) (freq : string) :
  freq <> "1h"%string -> freq <> "30Min"%string ->
  freq <> "15Min"%string -> freq <> "1d"%string ->
  let args := {| endog := train;
                 order := (1, 2, 2)%Z;
                 seasonal_order := (2, 2, 2, 0)%Z;
                 enforce_stationarity := true;
                 enforce_invertibility := false |} in
  sfrequency_of freq = 0%Z /\
  sarimax_args train freq = args /\
  _sarima SARIMAX fit residual_diagnostics forecast_of forecast_plots
          train test freq =
    (model <- SARIMAX args ;;
     model_fit <- fit model ;;
     residuals <- residual_diagnostics model_fit ;;
     forecast <- forecast_of model_fit (length test) ;;
     forecast <- frame_of forecast (index test) ;;
     shown <- forecast_plots forecast test ;;
     Py.Returns (model, model_fit, forecast)) /\
  (forall exc,
     SARIMAX args = Py.Raises exc ->
     _sarima SARIMAX fit residual_diagnostics forecast_of forecast_plots
             train test freq = Py.Raises exc).
Proof.
  intros H1 H2 H3 H4 args.
  pose proof (sfrequency_of_unknown H1 H2 H3 H4) as Hs.
  assert (Hargs : sarimax_args train freq = args).
  { unfold sarimax_args, args. now rewrite Hs. }
  split; [exact Hs |]. split; [exact Hargs |].
  split; [unfold _sarima; now rewrite Hargs |].
  intros exc Hexc. rewrite <- Hargs in Hexc.
  now apply _sarima_construction_error.
Qed.

Lemma unknown_frequency_period_0_witness :
  let train : DataFrame := [(0%Z, 1%R); (300%Z, 2%R)] in
  let test : DataFrame := [(600%Z, 3%R)] in
  sfrequency_of "5Min" = 0%Z /\
  _sarima need_period fit_all no_diagnostics flat_forecast no_plots
          train test "5Min"
    = Py.Raises "ValueError".
Proof.
  intros train test.
  assert (H1 : "5Min"%string <> "1h"%string) by discriminate.
  assert (H2 : "5Min"%string <> "30Min"%string) by discriminate.
  assert (H3 : "5Min"%string <> "15Min"%string) by discriminate.
  assert (H4 : "5Min"%string <> "1d"%string) by discriminate.
  pose proof (@unknown_frequency_period_0 _ _ need_period fit_all
                no_diagnostics flat_forecast no_plots
                train test "5Min"%string H1 H2 H3 H4) as H.
  cbv zeta in H. destruct H as (Hs & _ & _ & Hraise).
  split; [exact Hs |].
  apply Hraise. reflexivity.
Defined.

(** C6, counterexample.  For the frequency '5Min', which has no seasonal
    period in [_sarima], the code reaches the [SARIMAX] call with the
    seasonal order (2, 2, 2, 0); with a constructor that refuses a
    seasonal model of period 0 by a ValueError, as statsmodels does, the
    call of [_sarima] fails with that ValueError, not with
    InvalidCadence. *)
Lemma unknown_frequency_counterexample :
  let train : DataFrame := [(0%Z, 1%R); (300%Z, 2%R)] in
  let test : DataFrame := [(600%Z, 3%R)] in
  sfrequency_of "5Min" = 0%Z /\
  seasonal_order (sarimax_args train "5Min") = (2, 2, 2, 0)%Z /\
  _sarima need_period fit_all no_diagnostics flat_forecast no_plots
          train test "5Min"
    = Py.Raises "ValueError" /\
  _sarima need_period fit_all no_diagnostics flat_forecast no_plots
          train test "5Min"
    <> Py.Raises "InvalidCadence".
Proof.
  intros train test.
  assert (Hfail : _sarima need_period fit_all no_diagnostics flat_forecast
                          no_plots train test "5Min"
                  = Py.Raises "ValueError") by reflexivity.
  split; [reflexivity |]. split; [reflexivity |].
  split; [exact Hfail |].
  rewrite Hfail. discriminate.
Qed.

(** ** The resampling cell *)

Lemma bucket_of_bounds (w t : Z) :
  (0 < w)%Z -> (bucket_of w t <= t < bucket_of w t + w)%Z.
Proof.
  intros Hw. unfold bucket_of.
  pose proof (Z.mul_div_le t w Hw).
  pose proof (Z.mul_succ_div_gt t w Hw). lia.
Qed.

Lemma bucket_of_aligned (w t : Z) :
  (0 < w)%Z -> bucket_of w (bucket_of w t) = bucket_of w t.
Proof.
  intros Hw. unfold bucket_of.
  rewrite (Z.mul_comm w (t / w)), Z.div_mul by lia. ring.
Qed.

(** A timestamp lies in the bin of an aligned edge exactly when the edge
    is the timestamp's bucket. *)
Lemma in_bin_bucket (w b : Z) (row : Z * R) :
  (0 < w)%Z -> bucket_of w b = b ->
  in_bin w b row = true <-> bucket_of w (fst row) = b.
Proof.
  intros Hw Hb. unfold in_bin.
  rewrite andb_true_iff, Z.leb_le, Z.ltb_lt.
  split.
  - intros [Hlo Hhi]. unfold bucket_of in *.
    assert (Hq : (fst row / w = b / w)%Z).
    { symmetry. apply Z.div_unique with (r := (fst row - b)%Z); lia. }
    now rewrite Hq.
  - intros <-. apply bucket_of_bounds, Hw.
Qed.

Lemma fold_min_le (t : Z) (ts : list Z) :
  (fold_right Z.min t ts <= t)%Z /\
  forall s, In s ts -> (fold_right Z.min t ts <= s)%Z.
Proof.
  induction ts as [| h rest [IH1 IH2]]; simpl.
  - split; [lia | contradiction].
  - split; [lia |].
    intros s [<- | Hs]; [lia |]. specialize (IH2 s Hs). lia.
Qed.

Lemma fold_max_ge (t : Z) (ts : list Z) :
  (t <= fold_right Z.max t ts)%Z /\
  forall s, In s ts -> (s <= fold_right Z.max t ts)%Z.
Proof.
  induction ts as [| h rest [IH1 IH2]]; simpl.
  - split; [lia | contradiction].
  - split; [lia |].
    intros s [<- | Hs]; [lia |]. specialize (IH2 s Hs). lia.
Qed.

(** Every bin edge is aligned. *)
Lemma bin_edges_aligned (w : Z) (idx : list Z) (b : Z) :
  (0 < w)%Z -> In b (bin_edges w idx) -> bucket_of w b = b.
Proof.
  intros Hw. unfold bin_edges.
  destruct idx as [| t ts]; [contradiction |].
  cbv zeta. rewrite in_map_iff. intros (k & <- & _).
  unfold bucket_of.
  replace (w * (fold_right Z.min t ts / w) + w * Z.of_nat k)%Z
    with ((fold_right Z.min t ts / w + Z.of_nat k) * w)%Z by ring.
  rewrite Z.div_mul by lia. ring.
Qed.

(** The bucket of every timestamp of the index is a bin edge. *)
Lemma bin_edges_complete (w : Z) (idx : list Z) (s : Z) :
  (0 < w)%Z -> In s idx -> In (bucket_of w s) (bin_edges w idx).
Proof.
  intros Hw Hs. unfold bin_edges.
  destruct idx as [| t ts]; [contradiction |].
  cbv zeta.
  set (lo := fold_right Z.min t ts). set (hi := fold_right Z.max t ts).
  assert (Hlo : (lo <= s)%Z).
  { destruct (fold_min_le t ts) as [H1 H2].
    destruct Hs as [<- | Hs]; [exact H1 | exact (H2 s Hs)]. }
  assert (Hhi : (s <= hi)%Z).
  { destruct (fold_max_ge t ts) as [H1 H2].
    destruct Hs as [<- | Hs]; [exact H1 | exact (H2 s Hs)]. }
  assert (Hq1 : (lo / w <= s / w)%Z) by (apply Z.div_le_mono; lia).
  assert (Hq2 : (s / w <= hi / w)%Z) by (apply Z.div_le_mono; lia).
  assert (Hspan : ((bucket_of w hi - bucket_of w lo) / w = hi / w - lo / w)%Z).
  { unfold bucket_of.
    replace (w * (hi / w) - w * (lo / w))%Z with ((hi / w - lo / w) * w)%Z
      by ring.
    apply Z.div_mul. lia. }
  rewrite Hspan. apply in_map_iff.
  exists (Z.to_nat (s / w - lo / w)). split.
  - unfold bucket_of. rewrite Z2Nat.id by lia. ring.
  - apply in_seq. lia.
Qed.

Lemma bin_edges_increasing (w : Z) (idx : list Z) :
  (0 < w)%Z -> StronglySorted Z.lt (bin_edges w idx).
Proof.
  intros Hw. unfold bin_edges.
  destruct idx as [| t ts]; [constructor |].
  cbv zeta.
  generalize (S (Z.to_nat ((bucket_of w (fold_right Z.max t ts)
                            - bucket_of w (fold_right Z.min t ts)) / w))) as n.
  generalize (bucket_of w (fold_right Z.min t ts)) as first.
  intros first n. generalize 0%nat as a.
  induction n as [| n IH]; intros a; simpl; constructor.
  - apply IH.
  - apply Forall_forall. intros b Hb.
    apply in_map_iff in Hb. destruct Hb as (k & <- & Hk).
    apply in_seq in Hk. nia.
Qed.

Lemma in_dropna (rows : list (Z * float)) (b : Z) (v : R) :
  In (b, v) (dropna rows) <-> In (b, Num v) rows.
Proof.
  induction rows as [| row rest IH]; [simpl; tauto |].
  destruct row as [t [| x]]; simpl.
  - rewrite IH. split; [now right | intros [H | H]; [discriminate | exact H]].
  - rewrite IH. split.
    + intros [H | H]; [left; injection H as -> ->; reflexivity | now right].
    + intros [H | H]; [left; injection H as -> ->; reflexivity | now right].
Qed.

Lemma dropna_increasing (rows : list (Z * float)) :
  StronglySorted Z.lt (map fst rows) ->
  StronglySorted Z.lt (index (dropna rows)).
Proof.
  induction rows as [| row rest IH]; [constructor |].
  destruct row as [t [| x]]; simpl; intros Hs.
  - inversion Hs; subst. now apply IH.
  - inversion Hs as [| ? ? Hrest Hall]; subst.
    constructor; [now apply IH |].
    rewrite Forall_forall in *. intros b Hb.
    unfold index in Hb. apply in_map_iff in Hb.
    destruct Hb as ([b' v] & <- & Hin). simpl.
    apply in_dropna in Hin.
    apply Hall. change b' with (fst (b', Num v)). now apply in_map.
Qed.

Lemma resample_mean_index (w : Z) (df : DataFrame) :
  map fst (resample_mean w df) = bin_edges w (index df).
Proof.
  unfold resample_mean. rewrite map_map. simpl. apply map_id.
Qed.

(** The rows of the resampled frame: one for each bin edge whose bin holds
    a sample, with the mean of the bin's samples. *)
Lemma in_resample_cell (w : Z) (df : DataFrame) (b : Z) (v : R) :
  In (b, v) (resample_cell w df) <->
  In b (bin_edges w (index df)) /\
  filter (in_bin w b) df <> [] /\
  v = np_mean (column (filter (in_bin w b) df)).
Proof.
  unfold resample_cell. cbv zeta. rewrite in_dropna.
  unfold resample_mean. rewrite in_map_iff. split.
  - intros (b' & Heq & Hin). injection Heq as -> Hmean.
    split; [exact Hin |].
    destruct (filter (in_bin w b) df) as [| r rest]; [discriminate |].
    split; [discriminate |].
    simpl in Hmean. now injection Hmean as <-.
  - intros (Hin & Hne & ->). exists b. split; [| exact Hin].
    f_equal. destruct (filter (in_bin w b) df) as [| r rest];
      [contradiction | reflexivity].
Qed.

Lemma freq_seconds_divides_day (freq : string) (w : Z) :
  freq_seconds freq = Some w -> (0 < w)%Z /\ (w | 86400)%Z.
Proof.
  unfold freq_seconds.
  destruct (String.eqb freq "1h"); [intros H; injection H as <-; split;
    [lia | exists 24%Z; reflexivity] |].
  destruct (String.eqb freq "30Min"); [intros H; injection H as <-; split;
    [lia | exists 48%Z; reflexivity] |].
  destruct (String.eqb freq "15Min"); [intros H; injection H as <-; split;
    [lia | exists 96%Z; reflexivity] |].
  destruct (String.eqb freq "1d"); [intros H; injection H as <-; split;
    [lia | exists 1%Z; reflexivity] |].
  discriminate.
Qed.

(** C7.  For every raw sample sequence and every bucket width w > 0 that
    divides a day (15 minutes, 30 minutes, 1 hour, 1 day), the resampling
    cell groups the samples into the buckets [b, b + w) whose
    left edges b are the multiples of w (non-overlapping, aligned to the
    epoch: a sample belongs to the bucket of edge b exactly when b is its
    timestamp rounded down to a multiple of w); the output has its
    timestamps strictly increasing, exactly one row for every bucket that
    holds at least one sample and no row for a bucket that holds none, and
    the value of a row is the arithmetic mean (sum over count) of the raw
    values of its bucket. *)
Theorem resample_cell_bucket_means (w : Z) (m_values : DataFrame) :
  (0 < w)%Z -> (w | 86400)%Z ->
  let out := resample_cell w m_values in
  (forall b, In b (index out) -> bucket_of w b = b /\ (w | b)%Z) /\
  (forall b row, bucket_of w b = b ->
     (in_bin w b row = true <-> bucket_of w (fst row) = b)) /\
  StronglySorted Z.lt (index out) /\
  NoDup (index out) /\
  (forall b, In b (index out) <->
             exists row, In row m_values /\ bucket_of w (fst row) = b) /\
  (forall b, bucket_of w b = b -> filter (in_bin w b) m_values = [] ->
             ~ In b (index out)) /\
  (forall b v, In (b, v) out ->
     let bucket := filter (in_bin w b) m_values in
     bucket <> [] /\
     v = (np_sum (column bucket) / INR (length (column bucket)))%R).
Proof.
  intros Hw _ out.
  assert (Hin : forall b, In b (index out) <->
            exists v, In b (bin_edges w (index m_values)) /\
                      filter (in_bin w b) m_values <> [] /\
                      v = np_mean (column (filter (in_bin w b) m_values))).
  { intros b. unfold index. rewrite in_map_iff. split.
    - intros ([b' v] & <- & Hrow). exists v. now apply in_resample_cell.
    - intros (v & Hrow). exists (b, v). split; [reflexivity |].
      now apply in_resample_cell. }
  assert (Haligned : forall b, In b (index out) -> bucket_of w b = b).
  { intros b Hb. apply Hin in Hb. destruct Hb as (v & Hedge & _).
    now apply bin_edges_aligned with (idx := index m_values). }
  assert (Hsorted : StronglySorted Z.lt (index out)).
  { apply dropna_increasing. rewrite resample_mean_index.
    now apply bin_edges_increasing. }
  assert (Hiff : forall b, In b (index out) <->
            exists row, In row m_values /\ bucket_of w (fst row) = b).
  { intros b. split.
    - intros Hb. pose proof (Haligned b Hb) as Hal.
      apply Hin in Hb. destruct Hb as (v & _ & Hne & _).
      destruct (filter (in_bin w b) m_values) as [| row rest] eqn:Hf;
        [contradiction |].
      assert (Hrow : In row (filter (in_bin w b) m_values))
        by (rewrite Hf; now left).
      apply filter_In in Hrow. destruct Hrow as [Hrow Hbin].
      exists row. split; [exact Hrow |].
      now apply in_bin_bucket in Hbin.
    - intros (row & Hrow & <-). apply Hin.
      eexists. split; [| split; [| reflexivity]].
      + apply bin_edges_complete; [exact Hw |].
        unfold index. now apply in_map.
      + assert (Hf : In row (filter (in_bin w (bucket_of w (fst row))) m_values)).
        { apply filter_In. split; [exact Hrow |].
          apply in_bin_bucket; [exact Hw | | reflexivity].
          now apply bucket_of_aligned. }
        intros Hnil. now rewrite Hnil in Hf. }
  split.
  { intros b Hb. split; [now apply Haligned |].
    rewrite <- (Haligned b Hb). unfold bucket_of.
    exists (b / w)%Z. ring. }
  split; [intros b row Hb; now apply in_bin_bucket |].
  split; [exact Hsorted |].
  split.
  { clear - Hsorted. induction Hsorted as [| b rest _ IH Hall]; constructor;
      [| exact IH].
    intros Hb. rewrite Forall_forall in Hall. specialize (Hall b Hb). lia. }
  split; [exact Hiff |].
  split.
  { intros b Hal Hempty Hb. apply Hin in Hb.
    destruct Hb as (v & _ & Hne & _). contradiction. }
  intros b v Hrow bucket.
  apply in_resample_cell in Hrow. destruct Hrow as (_ & Hne & ->).
  split; [exact Hne | reflexivity].
Qed.

Lemma resample_cell_bucket_means_witness :
  let w := 3600%Z in
  let m_values : DataFrame := [(0%Z, 1%R); (60%Z, 3%R); (7300%Z, 5%R)] in
  let out := resample_cell w m_values in
  (forall b, In b (index out) -> bucket_of w b = b /\ (w | b)%Z) /\
  (forall b row, bucket_of w b = b ->
     (in_bin w b row = true <-> bucket_of w (fst row) = b)) /\
  StronglySorted Z.lt (index out) /\
  NoDup (index out) /\
  (forall b, In b (index out) <->
             exists row, In row m_values /\ bucket_of w (fst row) = b) /\
  (forall b, bucket_of w b = b -> filter (in_bin w b) m_values = [] ->
             ~ In b (index out)) /\
  (forall b v, In (b, v) out ->
     let bucket := filter (in_bin w b) m_values in
     bucket <> [] /\
     v = (np_sum (column bucket) / INR (length (column bucket)))%R).
Proof.
  intros w m_values.
  apply (@resample_cell_bucket_means w m_values).
  - unfold w. lia.
  - exists 24%Z. reflexivity.
Defined.

(** An hourly resampling: two samples in the first hour, none in the
    second, one in the third.  The empty hour has no row. *)
Example resample_cell_hourly :
  let m_values : DataFrame := [(0%Z, 1%R); (60%Z, 3%R); (7300%Z, 5%R)] in
  freq_seconds "1h" = Some 3600%Z /\
  resample_mean 3600 m_values =
    [(0%Z, Num (np_mean [1%R; 3%R])); (3600%Z, NaN);
     (7200%Z, Num (np_mean [5%R]))] /\
  resample_cell 3600 m_values =
    [(0%Z, np_mean [1%R; 3%R]); (7200%Z, np_mean [5%R])] /\
  np_mean [1%R; 3%R] = 2%R /\ np_mean [5%R] = 5%R.
Proof.
  intros m_values.
  split; [reflexivity |]. split; [reflexivity |]. split; [reflexivity |].
  unfold np_mean, np_sum. simpl. split; field.
Qed.

(** ** Checks on IEEE doubles *)

(** On doubles, [int(len * (1 - 0.2))] is the integer part of 4n/5 for
    every frame of fewer than 5000 rows. *)
Example split_point_on_doubles :
  forallb Binary64.split_point_agrees (seq 0 5000) = true.
Proof. vm_compute. reflexivity. Qed.

(** On doubles, the deviation of an empty slice is NaN, so are the bounds
    around the prediction 10, and the actual value 10 is on neither side
    inside the band. *)
Example empty_window_on_doubles : Binary64.empty_window_checks = true.
Proof. vm_compute. reflexivity. Qed.

(** * Further properties *)

(** ** The first two rows of the evaluation *)

(** A row of the result is the row that [evaluation_nth] describes. *)
Lemma evaluation_row (forecast test : DataFrame) (i : nat) (r : CompareRow) :
  index forecast = index test ->
  nth_error (evaluation forecast test) i = Some r ->
  (i < length forecast)%nat /\
  predict r = nth i (column forecast) 0%R /\
  LowerBound r = nth i (lower_bound forecast) NaN /\
  UpperBound r = nth i (upper_bound forecast) NaN /\
  WithinUpperBounds r = Float.ltb (Num (predict r)) (UpperBound r) /\
  WithinLowerBounds r = Float.gtb (Num (predict r)) (LowerBound r) /\
  Anomaly r = anomaly_flag (y r) (LowerBound r) (UpperBound r).
Proof.
  intros Hidx Hr.
  assert (Hi : (i < length test)%nat).
  { rewrite <- (length_evaluation forecast test Hidx).
    apply nth_error_Some. now rewrite Hr. }
  rewrite (evaluation_nth forecast test Hidx Hi) in Hr.
  injection Hr as <-. simpl.
  rewrite (index_length _ _ Hidx). repeat split. exact Hi.
Qed.

(** X1.  The second row of the evaluation is always flagged, like the
    first: in the first row both bounds are NaN, in the second the window
    holds one prediction, its deviation is 0 and both bounds are the
    row's prediction, so the band has no interior.  In both rows
    [WithinUpperBounds] and [WithinLowerBounds] are false and the anomaly
    flag is 1, whatever the actual value is. *)
Theorem first_two_rows_always_anomalous
  (forecast test : DataFrame) (i : nat) (r : CompareRow) :
  index forecast = index test ->
  (i <= 1)%nat ->
  nth_error (evaluation forecast test) i = Some r ->
  Anomaly r = 1%Z /\
  WithinUpperBounds r = false /\
  WithinLowerBounds r = false /\
  (i = 0%nat -> LowerBound r = NaN /\ UpperBound r = NaN) /\
  (i = 1%nat ->
   LowerBound r = Num (predict r) /\ UpperBound r = Num (predict r)).
Proof.
  intros Hidx Hle Hr.
  destruct (evaluation_row forecast test i Hidx Hr)
    as (Hi & Hp & Hlo & Hup & Hwu & Hwl & Han).
  assert (Hirr : forall x, Float.ltb (Num x) (Num x) = false).
  { intros x. destruct (Float.ltb (Num x) (Num x)) eqn:Hx; [| reflexivity].
    apply ltb_Num in Hx. lra. }
  destruct i as [| [| i']]; [| | lia].
  - assert (Hne : forecast <> []) by (intros ->; simpl in Hi; lia).
    rewrite (lower_bound_0 Hne) in Hlo. rewrite (upper_bound_0 Hne) in Hup.
    rewrite Hwu, Hwl, Han, Hup, Hlo. unfold Float.gtb. simpl.
    repeat split; try reflexivity; discriminate.
  - assert (H1 : (1 <= 1 < length forecast)%nat) by lia.
    destruct (bounds_nth forecast H1) as [Hu Hl].
    assert (Hwin : exists x, firstn 1 (column forecast) = [x]).
    { destruct forecast as [| a rest]; [simpl in Hi; lia |].
      exists (snd a). reflexivity. }
    destruct Hwin as (x & Hwin).
    rewrite Hwin, population_std_single in Hu, Hl.
    assert (Hup' : UpperBound r = Num (predict r)).
    { rewrite Hup, Hu, Hp. f_equal. lra. }
    assert (Hlo' : LowerBound r = Num (predict r)).
    { rewrite Hlo, Hl, Hp. f_equal. lra. }
    rewrite Hwu, Hwl, Han, Hup', Hlo'. unfold Float.gtb.
    split.
    { apply anomaly_flag_1. intros (lo & up & Hlo2 & Hup2 & Hlt).
      injection Hlo2 as <-. injection Hup2 as <-. lra. }
    split; [apply Hirr |]. split; [apply Hirr |].
    split; [discriminate | intros _; now split].
Qed.

Lemma first_two_rows_always_anomalous_witness :
  let forecast : DataFrame := [(0%Z, 7%R); (3600%Z, 9%R); (7200%Z, 8%R)] in
  let test : DataFrame := [(0%Z, 1%R); (3600%Z, 9%R); (7200%Z, 8%R)] in
  exists r, nth_error (evaluation forecast test) 1 = Some r /\
    Anomaly r = 1%Z /\
    WithinUpperBounds r = false /\
    WithinLowerBounds r = false /\
    (1%nat = 0%nat -> LowerBound r = NaN /\ UpperBound r = NaN) /\
    (1%nat = 1%nat ->
     LowerBound r = Num (predict r) /\ UpperBound r = Num (predict r)).
Proof.
  intros forecast test.
  eexists. split; [reflexivity |].
  apply (@first_two_rows_always_anomalous forecast test 1);
    [reflexivity | lia | reflexivity].
Defined.

(** On doubles too the deviation of a window of one value is 0, the band
    after it is the prediction itself, and the actual value is not inside
    it. *)
Example single_point_window_on_doubles : Binary64.single_point_checks = true.
Proof. vm_compute. reflexivity. Qed.

Lemma map_field_ext (A A' B : Type) (f : A -> B) (g : A' -> B)
      (l1 : list A) (l2 : list A') :
  length l1 = length l2 ->
  (forall i r1 r2, nth_error l1 i = Some r1 -> nth_error l2 i = Some r2 ->
                   f r1 = g r2) ->
  map f l1 = map g l2.
Proof.
  revert l2. induction l1 as [| h1 t1 IH]; intros [| h2 t2] Hlen Hf;
    simpl in *; try reflexivity; try discriminate.
  f_equal.
  - now apply (Hf 0%nat).
  - apply IH; [lia |]. intros i r1 r2 H1 H2. now apply (Hf (S i)).
Qed.

(** ** Sizes and order of the split *)

(** X5.  The test part of [split_data] holds the ceiling of a fifth of the
    n rows (n <= 5 * len(test) < n + 5) and the train part the others: the
    test part is empty only for an empty frame, whereas the train part is
    empty for every frame of at most one row. *)
Theorem split_data_sizes (dataframe : DataFrame) :
  let n := length dataframe in
  let train := fst (split_data dataframe) in
  let test := snd (split_data dataframe) in
  (5 * length test >= n)%nat /\
  (5 * length test < n + 5)%nat /\
  (length train = n - length test)%nat /\
  (test = [] <-> dataframe = []) /\
  (train = [] <-> (n <= 1)%nat).
Proof.
  intros n train test.
  assert (Hn : n = length dataframe) by reflexivity. clearbody n.
  pose proof (split_data_lengths dataframe) as Hsum.
  fold train test in Hsum. rewrite <- Hn in Hsum.
  assert (Htrain : Z.of_nat (length train) = (4 * Z.of_nat n / 5)%Z).
  { unfold train. rewrite split_data_eq. cbn [fst].
    rewrite length_firstn, length_sort_values, <- Hn.
    pose proof (split_point_le n). rewrite Nat.min_l by lia.
    apply Z2Nat.id. Z.div_mod_to_equations; lia. }
  assert (Hdiv : (5 * Z.of_nat (length train) <= 4 * Z.of_nat n
                  < 5 * Z.of_nat (length train) + 5)%Z).
  { rewrite Htrain. Z.div_mod_to_equations; lia. }
  split; [lia |]. split; [lia |]. split; [lia |].
  split.
  - split.
    + intros Htest. rewrite Htest in Hsum. simpl in Hsum.
      destruct dataframe; [reflexivity | simpl in Hn; lia].
    + intros Hdf. rewrite Hdf in Hn. simpl in Hn.
      destruct test; [reflexivity | simpl in Hsum; lia].
  - split.
    + intros Htr. rewrite Htr in Hdiv. simpl length in Hdiv. lia.
    + intros Hle. destruct train; [reflexivity | simpl length in Hdiv; lia].
Qed.

(** Two frames in time order with the same rows, no timestamp twice, are
    the same frame. *)
Lemma sorted_rows_unique (l1 l2 : DataFrame) :
  StronglySorted chronological l1 ->
  StronglySorted chronological l2 ->
  Permutation l1 l2 ->
  NoDup (index l1) ->
  l1 = l2.
Proof.
  revert l2. induction l1 as [| a t1 IH]; intros l2 Hs1 Hs2 Hperm Hnd.
  - apply Permutation_nil in Hperm. now rewrite Hperm.
  - destruct l2 as [| b t2].
    { apply Permutation_sym, Permutation_nil in Hperm. discriminate. }
    inversion Hs1 as [| ? ? Hs1' Hall1]; subst.
    inversion Hs2 as [| ? ? Hs2' Hall2]; subst.
    simpl in Hnd. inversion Hnd as [| ? ? Hnotin Hnd']; subst.
    rewrite Forall_forall in Hall1, Hall2.
    assert (Hb : In b (a :: t1))
      by (apply (Permutation_in _ (Permutation_sym Hperm)); now left).
    assert (Ha : In a (b :: t2))
      by (apply (Permutation_in _ Hperm); now left).
    assert (Hab : a = b).
    { destruct Hb as [Hb | Hb]; [exact Hb |].
      destruct Ha as [Ha | Ha]; [now symmetry |].
      pose proof (Hall1 b Hb) as H1. pose proof (Hall2 a Ha) as H2.
      unfold chronological in H1, H2.
      exfalso. apply Hnotin.
      replace (fst a) with (fst b) by lia.
      unfold index. now apply in_map. }
    subst b. f_equal.
    apply IH; try assumption.
    now apply Permutation_cons_inv in Hperm.
Qed.

(** X6.  The split does not depend on the order in which the rows come:
    two frames with the same rows, no timestamp twice, have the same train
    part and the same test part. *)
Theorem split_data_order_independent (dataframe dataframe' : DataFrame) :
  Permutation dataframe dataframe' ->
  NoDup (index dataframe) ->
  split_data dataframe = split_data dataframe'.
Proof.
  intros Hperm Hnd.
  assert (Hsort : sort_values dataframe = sort_values dataframe').
  { apply sorted_rows_unique; try apply sort_values_sorted.
    - eapply Permutation_trans; [apply sort_values_perm |].
      eapply Permutation_trans; [exact Hperm |].
      apply Permutation_sym, sort_values_perm.
    - unfold index.
      apply (Permutation_NoDup (l := map fst dataframe)); [| exact Hnd].
      apply Permutation_map, Permutation_sym, sort_values_perm. }
  rewrite !split_data_eq, Hsort, (Permutation_length Hperm). reflexivity.
Qed.

Lemma split_data_order_independent_witness :
  split_data [(7200%Z, 3%R); (0%Z, 1%R); (3600%Z, 2%R)]
  = split_data [(0%Z, 1%R); (3600%Z, 2%R); (7200%Z, 3%R)].
Proof.
  apply split_data_order_independent.
  - change [(0%Z, 1%R); (3600%Z, 2%R); (7200%Z, 3%R)]
      with ([(0%Z, 1%R); (3600%Z, 2%R)] ++ [(7200%Z, 3%R)]).
    apply Permutation_cons_app. rewrite app_nil_r. apply Permutation_refl.
  - repeat constructor; simpl; intuition discriminate.
Defined.

(** ** The forecast frame *)

Lemma combine_index_column (idx : list Z) (values : list R) :
  length values = length idx ->
  index (combine idx values) = idx /\ column (combine idx values) = values.
Proof.
  revert values. induction idx as [| t idx IH]; intros [| v values] Hlen;
    simpl in *; try discriminate; [split; reflexivity |].
  destruct (IH values) as [Hi Hc]; [lia |].
  unfold index, column in *. simpl. now rewrite Hi, Hc.
Qed.

Lemma frame_ext (f1 f2 : DataFrame) :
  index f1 = index f2 -> column f1 = column f2 -> f1 = f2.
Proof.
  unfold index, column. revert f2.
  induction f1 as [| [t v] f1 IH]; intros [| [t' v'] f2] Hi Hc;
    simpl in *; try discriminate; [reflexivity |].
  injection Hi as -> Hi. injection Hc as -> Hc.
  f_equal. now apply IH.
Qed.

(** X7.  When [_sarima] returns, the model is the one [SARIMAX]
    constructed on the training set, the fit is the fit of that model,
    and the forecast frame holds one value per test row: the values of
    [model_fit.forecast(len(test))], in order, under the timestamps of
    the test set. *)
Theorem sarima_returns_aligned_forecast
  (Model ModelFit : Type)
  (SARIMAX : SARIMAX_args -> Py.outcome Model)
  (fit : Model -> Py.outcome ModelFit)
  (residual_diagnostics : ModelFit -> Py.outcome unit)
  (forecast_of : ModelFit -> nat -> Py.outcome (list R))
  (forecast_plots : DataFrame -> DataFrame -> Py.outcome unit)
  (train test : DataFrame) (freq : string)
  (model : Model) (model_fit : ModelFit) (forecast : DataFrame) :
  _sarima SARIMAX fit residual_diagnostics forecast_of forecast_plots
          train test freq
    = Py.Returns (model, model_fit, forecast) ->
  SARIMAX (sarimax_args train freq) = Py.Returns model /\
  endog (sarimax_args train freq) = train /\
  fit model = Py.Returns model_fit /\
  exists values,
    forecast_of model_fit (length test) = Py.Returns values /\
    length values = length test /\
    length forecast = length test /\
    index forecast = index test /\
    column forecast = values.
Proof.
  intros H. apply _sarima_returns in H.
  destruct H as (Hm & Hf & values & Hv & Hframe).
  split; [exact Hm |]. split; [reflexivity |]. split; [exact Hf |].
  exists values. split; [exact Hv |].
  unfold frame_of in Hframe.
  destruct (Nat.eqb_spec (length values) (length (index test)))
    as [Hlen | _]; [| discriminate].
  injection Hframe as <-.
  destruct (combine_index_column (index test) values Hlen) as [Hi Hc].
  assert (Hidx : length (index test) = length test)
    by (unfold index; apply length_map).
  split; [lia |].
  split; [rewrite length_combine; lia |].
  split; assumption.
Qed.

Lemma sarima_returns_aligned_forecast_witness :
  let train : DataFrame := [(0%Z, 1%R); (3600%Z, 2%R)] in
  let test : DataFrame := [(7200%Z, 3%R); (10800%Z, 4%R)] in
  let model := sarimax_args train "1h" in
  let forecast : DataFrame := [(7200%Z, 0%R); (10800%Z, 0%R)] in
  accept_all (sarimax_args train "1h") = Py.Returns model /\
  endog (sarimax_args train "1h") = train /\
  fit_all model = Py.Returns model /\
  exists values,
    flat_forecast model (length test) = Py.Returns values /\
    length values = length test /\
    length forecast = length test /\
    index forecast = index test /\
    column forecast = values.
Proof.
  intros train test model forecast.
  apply (@sarima_returns_aligned_forecast _ _ accept_all fit_all
           no_diagnostics flat_forecast no_plots train test "1h"%string
           model model forecast).
  reflexivity.
Defined.

(** ** More on the resampling cell *)

Lemma increasing_nodup (l : list Z) : StronglySorted Z.lt l -> NoDup l.
Proof.
  induction 1 as [| b rest _ IH Hall]; constructor; [| exact IH].
  intros Hb. rewrite Forall_forall in Hall. specialize (Hall b Hb). lia.
Qed.

Lemma increasing_index_chronological (df : DataFrame) :
  StronglySorted Z.lt (index df) -> StronglySorted chronological df.
Proof.
  induction df as [| r rest IH]; intros Hs; [constructor |].
  simpl in Hs. inversion Hs as [| ? ? Hrest Hall]; subst.
  constructor; [now apply IH |].
  rewrite Forall_forall in *. intros x Hx.
  unfold chronological.
  assert (fst r < fst x)%Z by (apply Hall; now apply in_map).
  lia.
Qed.

Lemma resample_cell_increasing (w : Z) (df : DataFrame) :
  (0 < w)%Z -> StronglySorted Z.lt (index (resample_cell w df)).
Proof.
  intros Hw. unfold resample_cell. cbv zeta.
  apply dropna_increasing. rewrite resample_mean_index.
  now apply bin_edges_increasing.
Qed.

Lemma resample_cell_index (w : Z) (df : DataFrame) (b : Z) :
  (0 < w)%Z ->
  In b (index (resample_cell w df)) <->
  exists row, In row df /\ bucket_of w (fst row) = b.
Proof.
  intros Hw. unfold index at 1. rewrite in_map_iff. split.
  - intros ([b' v] & <- & Hrow). simpl.
    apply in_resample_cell in Hrow. destruct Hrow as (Hedge & Hne & _).
    pose proof (bin_edges_aligned _ _ Hw Hedge) as Hal.
    destruct (filter (in_bin w b') df) as [| row rest] eqn:Hf;
      [contradiction |].
    assert (Hrow : In row (filter (in_bin w b') df)) by (rewrite Hf; now left).
    apply filter_In in Hrow. destruct Hrow as [Hrow Hbin].
    exists row. split; [exact Hrow |]. now apply in_bin_bucket in Hbin.
  - intros (row & Hrow & <-).
    exists (bucket_of w (fst row),
            np_mean (column (filter (in_bin w (bucket_of w (fst row))) df))).
    split; [reflexivity |]. apply in_resample_cell.
    split; [| split; [| reflexivity]].
    + apply bin_edges_complete; [exact Hw |]. unfold index. now apply in_map.
    + assert (Hf : In row (filter (in_bin w (bucket_of w (fst row))) df)).
      { apply filter_In. split; [exact Hrow |].
        apply in_bin_bucket; [exact Hw | | reflexivity].
        now apply bucket_of_aligned. }
      intros Hnil. now rewrite Hnil in Hf.
Qed.

Lemma resample_cell_aligned (w : Z) (df : DataFrame) (b : Z) :
  (0 < w)%Z -> In b (index (resample_cell w df)) -> bucket_of w b = b.
Proof.
  intros Hw Hb. apply resample_cell_index in Hb; [| exact Hw].
  destruct Hb as (row & _ & <-). now apply bucket_of_aligned.
Qed.

(** X9.  At a frequency that divides a day, the resampled frame is never
    longer than the raw one, and it is empty exactly when the raw frame
    is: every raw sample is in the bucket of one output row. *)
Theorem resample_cell_length (w : Z) (m_values : DataFrame) :
  (0 < w)%Z -> (w | 86400)%Z ->
  (length (resample_cell w m_values) <= length m_values)%nat /\
  (resample_cell w m_values = [] <-> m_values = []) /\
  (forall row, In row m_values ->
     exists v, In (bucket_of w (fst row), v) (resample_cell w m_values) /\
               in_bin w (bucket_of w (fst row)) row = true).
Proof.
  intros Hw _.
  assert (Hcover : forall row, In row m_values ->
            exists v, In (bucket_of w (fst row), v) (resample_cell w m_values) /\
                      in_bin w (bucket_of w (fst row)) row = true).
  { intros row Hrow.
    assert (Hb : In (bucket_of w (fst row)) (index (resample_cell w m_values)))
      by (apply resample_cell_index; [exact Hw | now exists row]).
    unfold index in Hb. apply in_map_iff in Hb.
    destruct Hb as ([b v] & Hbv & Hin). simpl in Hbv. subst b.
    exists v. split; [exact Hin |].
    apply in_bin_bucket; [exact Hw | now apply bucket_of_aligned | reflexivity]. }
  split; [| split; [| exact Hcover]].
  - rewrite <- (length_map fst (resample_cell w m_values)).
    rewrite <- (length_map (fun row => bucket_of w (fst row)) m_values).
    apply NoDup_incl_length.
    + apply increasing_nodup. now apply resample_cell_increasing.
    + intros b Hb. apply (@resample_cell_index w m_values b Hw) in Hb.
      destruct Hb as (row & Hrow & <-).
      apply in_map_iff. now exists row.
  - split.
    + intros Hout. destruct m_values as [| row rest]; [reflexivity |].
      destruct (Hcover row) as (v & Hin & _); [now left |].
      rewrite Hout in Hin. contradiction.
    + intros ->. reflexivity.
Qed.

Lemma resample_cell_length_witness :
  let m_values : DataFrame := [(0%Z, 1%R); (60%Z, 3%R); (7300%Z, 5%R)] in
  (length (resample_cell 3600 m_values) <= length m_values)%nat /\
  (resample_cell 3600 m_values = [] <-> m_values = []) /\
  (forall row, In row m_values ->
     exists v, In (bucket_of 3600 (fst row), v) (resample_cell 3600 m_values) /\
               in_bin 3600 (bucket_of 3600 (fst row)) row = true).
Proof.
  intros m_values.
  apply (@resample_cell_length 3600 m_values);
    [lia | exists 24%Z; reflexivity].
Defined.

Lemma np_mean_single (v : R) : np_mean [v] = v.
Proof. unfold np_mean, np_sum. simpl. field. Qed.

Lemma filter_none (A : Type) (f : A -> bool) (l : list A) :
  (forall x, In x l -> f x = false) -> filter f l = [].
Proof.
  induction l as [| h rest IH]; intros Hl; [reflexivity |].
  simpl. rewrite (Hl h) by now left.
  apply IH. intros x Hx. apply Hl. now right.
Qed.

(** In a frame without repeated timestamps, the rows of a timestamp are
    its one row. *)
Lemma filter_timestamp (df : DataFrame) (b : Z) (v : R) :
  NoDup (index df) -> In (b, v) df ->
  filter (fun row => (fst row =? b)%Z) df = [(b, v)].
Proof.
  induction df as [| [t x] rest IH]; intros Hnd Hin; [contradiction |].
  simpl in Hnd. inversion Hnd as [| ? ? Hnotin Hnd']; subst.
  simpl. destruct Hin as [Heq | Hin].
  - injection Heq as -> ->. rewrite Z.eqb_refl. f_equal.
    apply filter_none.
    intros [t' x'] Hrow. simpl. apply Z.eqb_neq. intros ->.
    apply Hnotin. unfold index.
    change b with (fst (b, x')). now apply in_map.
  - destruct (Z.eqb_spec t b) as [-> | _].
    + exfalso. apply Hnotin. unfold index.
      change b with (fst (b, v)). now apply in_map.
    + now apply IH.
Qed.

(** X8.  At a frequency that divides a day, resampling a frame that is
    already at the frequency (timestamps strictly increasing, each on a
    bucket edge) gives the frame back, gaps included. *)
Theorem resample_cell_noop_at_frequency (w : Z) (m_values : DataFrame) :
  (0 < w)%Z -> (w | 86400)%Z ->
  StronglySorted Z.lt (index m_values) ->
  (forall t, In t (index m_values) -> bucket_of w t = t) ->
  resample_cell w m_values = m_values.
Proof.
  intros Hw _ Hsorted Haligned.
  pose proof (increasing_nodup Hsorted) as Hnd.
  assert (Hfilter : forall b v, In (b, v) m_values ->
            filter (in_bin w b) m_values = [(b, v)]).
  { intros b v Hin.
    rewrite <- (@filter_timestamp m_values b v Hnd Hin).
    apply filter_ext_in. intros row Hrow.
    assert (Hb : bucket_of w b = b).
    { apply Haligned. unfold index. change b with (fst (b, v)). now apply in_map. }
    assert (Hr : bucket_of w (fst row) = fst row).
    { apply Haligned. unfold index. now apply in_map. }
    apply Bool.eq_iff_eq_true.
    rewrite (@in_bin_bucket w b row Hw Hb), Hr, Z.eqb_eq. reflexivity. }
  apply sorted_rows_unique.
  - apply increasing_index_chronological. now apply resample_cell_increasing.
  - now apply increasing_index_chronological.
  - apply NoDup_Permutation.
    + apply (NoDup_map_inv fst), increasing_nodup.
      now apply resample_cell_increasing.
    + now apply (NoDup_map_inv fst).
    + intros [b v]. rewrite in_resample_cell. split.
      * intros (Hedge & Hne & ->).
        destruct (filter (in_bin w b) m_values) as [| [t x] rest] eqn:Hf;
          [contradiction |].
        assert (Hrow : In (t, x) (filter (in_bin w b) m_values))
          by (rewrite Hf; now left).
        apply filter_In in Hrow. destruct Hrow as [Hrow Hbin].
        apply in_bin_bucket in Hbin;
          [| exact Hw | now apply (@bin_edges_aligned w (index m_values) b Hw Hedge)].
        simpl in Hbin.
        rewrite (Haligned t) in Hbin
          by (unfold index; change t with (fst (t, x)); now apply in_map).
        subst t.
        rewrite (Hfilter b x Hrow) in Hf. injection Hf as <-.
        unfold column. simpl. now rewrite np_mean_single.
      * intros Hin. rewrite (Hfilter b v Hin).
        split; [| split; [discriminate |]].
        -- rewrite <- (Haligned b)
             by (unfold index; change b with (fst (b, v)); now apply in_map).
           apply bin_edges_complete; [exact Hw |].
           unfold index. change b with (fst (b, v)). now apply in_map.
        -- unfold column. simpl. now rewrite np_mean_single.
  - apply increasing_nodup. now apply resample_cell_increasing.
Qed.

Lemma resample_cell_noop_at_frequency_witness :
  resample_cell 3600 [(0%Z, 2%R); (7200%Z, 5%R)] = [(0%Z, 2%R); (7200%Z, 5%R)].
Proof.
  apply resample_cell_noop_at_frequency.
  - lia.
  - exists 24%Z. reflexivity.
  - repeat constructor.
  - intros t [<- | [<- | []]]; reflexivity.
Defined.

(** ** The notebook from the sampling to the evaluation *)

Lemma evaluation_ds_y (forecast test : DataFrame) :
  index forecast = index test ->
  map ds (evaluation forecast test) = index test /\
  map y (evaluation forecast test) = column test.
Proof.
  intros Hidx.
  pose proof (length_evaluation forecast test Hidx) as Hlen.
  assert (Hrow : forall i r p,
            nth_error (evaluation forecast test) i = Some r ->
            nth_error test i = Some p -> ds r = fst p /\ y r = snd p).
  { intros i r p Hr Hp.
    assert (Hi : (i < length test)%nat)
      by (apply nth_error_Some; now rewrite Hp).
    rewrite (evaluation_nth forecast test Hidx Hi) in Hr.
    injection Hr as <-. simpl.
    apply (nth_error_nth _ _ (0%Z, 0%R)) in Hp. rewrite Hp. now split. }
  unfold index, column. split; apply map_field_ext; try exact Hlen;
    intros i r p Hr Hp; now destruct (Hrow i r p Hr Hp).
Qed.

Lemma skipn_increasing (k : nat) (l : list Z) :
  StronglySorted Z.lt l -> StronglySorted Z.lt (skipn k l).
Proof.
  revert l. induction k as [| k IH]; intros l Hs; [exact Hs |].
  destruct l as [| h rest]; [constructor |].
  simpl. apply IH. now inversion Hs.
Qed.

Lemma in_skipn (A : Type) (k : nat) (l : list A) (x : A) :
  In x (skipn k l) -> In x l.
Proof.
  intros Hx. rewrite <- (firstn_skipn k l). apply in_or_app. now right.
Qed.

Section NotebookProperties.

Variables Model ModelFit : Type.
Variable SARIMAX : SARIMAX_args -> Py.outcome Model.
Variable fit : Model -> Py.outcome ModelFit.
Variable residual_diagnostics : ModelFit -> Py.outcome unit.
Variable forecast_of : ModelFit -> nat -> Py.outcome (list R).
Variable forecast_plots : DataFrame -> DataFrame -> Py.outcome unit.
Variable evaluation_plots : list CompareRow -> Py.outcome unit.

(** A returning run of the notebook evaluated a forecast aligned with the
    last rows of the resampled series. *)
Lemma notebook_returns (w : Z) (freq : string) (m_values : DataFrame)
      (records : list CompareRow) :
  (0 < w)%Z ->
  notebook SARIMAX fit residual_diagnostics forecast_of forecast_plots
           evaluation_plots w freq m_values = Py.Returns records ->
  let series := resample_cell w m_values in
  let k := Z.to_nat (4 * Z.of_nat (length series) / 5) in
  exists forecast,
    index forecast = index (skipn k series) /\
    records = evaluation forecast (skipn k series).
Proof.
  intros Hw Hrun series k. unfold notebook in Hrun. cbv zeta in Hrun.
  fold series in Hrun.
  assert (Hsorted : sort_values series = series).
  { apply sort_values_of_sorted.
    apply StronglySorted_Sorted.
    assert (Hlt : StronglySorted Z.lt (index series))
      by now apply resample_cell_increasing.
    clear - Hlt. induction Hlt as [| t rest _ IH Hall]; constructor;
      [exact IH |].
    eapply Forall_impl; [| exact Hall]. intros; lia. }
  rewrite split_data_eq, Hsorted in Hrun. fold k in Hrun.
  destruct (_sarima SARIMAX fit residual_diagnostics forecast_of
                    forecast_plots (firstn k series) (skipn k series) freq)
    as [[[model model_fit] forecast] | exc] eqn:Hs; [| discriminate].
  simpl in Hrun.
  destruct (evaluation_plots (evaluation forecast (skipn k series)))
    as [[] | exc]; [| discriminate].
  simpl in Hrun. injection Hrun as <-.
  exists forecast. split; [| reflexivity].
  now apply _sarima_forecast_index in Hs.
Qed.

End NotebookProperties.

(** X12.  When the notebook runs through (sampling at a frequency that
    divides a day, split, model, evaluation), the printed frame has one row for each of the last
    ceil(n / 5) rows of the resampled series of n rows, with that row's
    timestamp and value: the timestamps are strictly increasing multiples
    of the bucket width, and for a non-empty raw frame the first row
    exists, has NaN bounds and is flagged as an anomaly. *)
Theorem notebook_evaluates_last_fifth
  (Model ModelFit : Type)
  (SARIMAX : SARIMAX_args -> Py.outcome Model)
  (fit : Model -> Py.outcome ModelFit)
  (residual_diagnostics : ModelFit -> Py.outcome unit)
  (forecast_of : ModelFit -> nat -> Py.outcome (list R))
  (forecast_plots : DataFrame -> DataFrame -> Py.outcome unit)
  (evaluation_plots : list CompareRow -> Py.outcome unit)
  (w : Z) (freq : string) (m_values : DataFrame) (records : list CompareRow) :
  (0 < w)%Z -> (w | 86400)%Z ->
  notebook SARIMAX fit residual_diagnostics forecast_of forecast_plots
           evaluation_plots w freq m_values = Py.Returns records ->
  let series := resample_cell w m_values in
  let k := Z.to_nat (4 * Z.of_nat (length series) / 5) in
  map ds records = skipn k (index series) /\
  map y records = skipn k (column series) /\
  (length records = length series - k)%nat /\
  (length series <= 5 * length records < length series + 5)%nat /\
  StronglySorted Z.lt (map ds records) /\
  (forall t, In t (map ds records) -> (w | t)%Z) /\
  (m_values <> [] ->
   exists r rest, records = r :: rest /\
     LowerBound r = NaN /\ UpperBound r = NaN /\ Anomaly r = 1%Z).
Proof.
  intros Hw _ Hrun series k.
  destruct (@notebook_returns _ _ SARIMAX fit residual_diagnostics forecast_of
              forecast_plots evaluation_plots w freq m_values records Hw Hrun)
    as (forecast & Hidx & ->).
  fold series k in Hidx |- *.
  destruct (evaluation_ds_y forecast (skipn k series) Hidx) as [Hds Hy].
  assert (Hk : (5 * Z.of_nat k <= 4 * Z.of_nat (length series)
                < 5 * Z.of_nat k + 5)%Z).
  { unfold k. rewrite Z2Nat.id by (Z.div_mod_to_equations; lia).
    Z.div_mod_to_equations; lia. }
  assert (Hlen : length (evaluation forecast (skipn k series))
                 = (length series - k)%nat).
  { rewrite (length_evaluation forecast (skipn k series) Hidx).
    apply length_skipn. }
  assert (Hindex : map ds (evaluation forecast (skipn k series))
                   = skipn k (index series)).
  { rewrite Hds. unfold index. symmetry. apply skipn_map. }
  split; [exact Hindex |].
  split; [rewrite Hy; unfold column; symmetry; apply skipn_map |].
  split; [exact Hlen |].
  split; [rewrite Hlen; lia |].
  split; [rewrite Hindex; apply skipn_increasing;
          now apply resample_cell_increasing |].
  split.
  - intros t Ht. rewrite Hindex in Ht. apply in_skipn in Ht.
    apply (@resample_cell_aligned w m_values t Hw) in Ht.
    rewrite <- Ht. unfold bucket_of. exists (t / w)%Z. ring.
  - intros Hne.
    assert (Hseries : (1 <= length series)%nat).
    { destruct m_values as [| row rest]; [contradiction |].
      assert (Hb : In (bucket_of w (fst row)) (index series)).
      { apply resample_cell_index; [exact Hw |]. exists row. split;
          [now left | reflexivity]. }
      destruct series; [contradiction | simpl; lia]. }
    assert (H0 : (0 < length (skipn k series))%nat)
      by (rewrite length_skipn; lia).
    pose proof (evaluation_nth forecast (skipn k series) Hidx H0) as Hrow.
    assert (Hfne : forecast <> []).
    { intros ->. apply index_length in Hidx. simpl in Hidx. lia. }
    rewrite (upper_bound_0 Hfne), (lower_bound_0 Hfne) in Hrow.
    destruct (evaluation forecast (skipn k series)) as [| r rest];
      [discriminate |].
    simpl in Hrow. injection Hrow as Hr.
    exists r, rest. rewrite Hr. simpl. repeat split.
Qed.

Lemma notebook_evaluates_last_fifth_witness :
  let m_values : DataFrame :=
    [(0%Z, 1%R); (60%Z, 3%R); (3700%Z, 4%R); (7300%Z, 5%R)] in
  let series := resample_cell 3600 m_values in
  let k := Z.to_nat (4 * Z.of_nat (length series) / 5) in
  let records := evaluation [(7200%Z, 0%R)] [(7200%Z, np_mean [5%R])] in
  map ds records = skipn k (index series) /\
  map y records = skipn k (column series) /\
  (length records = length series - k)%nat /\
  (length series <= 5 * length records < length series + 5)%nat /\
  StronglySorted Z.lt (map ds records) /\
  (forall t, In t (map ds records) -> (3600 | t)%Z) /\
  (m_values <> [] ->
   exists r rest, records = r :: rest /\
     LowerBound r = NaN /\ UpperBound r = NaN /\ Anomaly r = 1%Z).
Proof.
  intros m_values series k records.
  apply (@notebook_evaluates_last_fifth _ _ accept_all fit_all no_diagnostics
           flat_forecast no_plots (fun _ => Py.Returns tt)
           3600 "1h"%string m_values records);
    [lia | exists 24%Z; reflexivity | reflexivity].
Defined.

(** ** Extending the horizon *)



